(** * Auto 3s Mute: the silence detector and mute-state reconciler

    A shallow embedding of the content script's [AudioLevelMonitor]
    (the keyboard-shortcut variant with the unmute cooldown) and the
    properties its specification states about it.

    JavaScript numbers are IEEE 754 binary64 values, so they are modelled
    by Rocq's primitive [float]: [0.1 + 0.1 + ...] rounds here exactly as
    it does in the browser.  Strings are byte strings (the UTF-8 encoding
    of the source text); substring search on well-formed UTF-8 agrees with
    substring search on the UTF-16 code units JavaScript uses. *)

From Stdlib Require Import ZArith List Bool String Ascii Lia Floats Uint63.
From Stdlib.Strings Require Import Byte.
Import ListNotations.

Set Warnings "-inexact-float".

Local Open Scope string_scope.
Local Open Scope list_scope.

(** ** The page: elements, attributes and selectors *)

Module Dom.

(** A DOM element as the script reads it: its lower-case tag name, its
    attributes in source order, and its class list. *)
Record Element : Type := mkElement {
  localName : string;
  attributes : list (string * string);
  classList : list string
}.

(** A document is the list of its elements in document order, which is
    the order [querySelector] searches in. *)
Definition Document : Type := list Element.

Fixpoint lookupAttr (attrs : list (string * string)) (name : string)
  : option string :=
  match attrs with
  | [] => None
  | (k, v) :: rest => if String.eqb k name then Some v else lookupAttr rest name
  end.

(** [element.getAttribute(name)]: [None] is JavaScript's [null]. *)
Definition getAttribute (e : Element) (name : string) : option string :=
  lookupAttr (attributes e) name.

(** [element.hasAttribute(name)] *)
Definition hasAttribute (e : Element) (name : string) : bool :=
  match getAttribute e name with Some _ => true | None => false end.

(** [s.includes(sub)] *)
Definition includes (s sub : string) : bool :=
  match String.index 0 sub s with Some _ => true | None => false end.

(** [value || ""] on the result of [getAttribute]: [null] and the empty
    string both give the empty string. *)
Definition orEmpty (v : option string) : string :=
  match v with Some s => s | None => "" end.

(** The attribute tests the script's selectors use. Every substring the
    script searches for is non-empty, so the CSS rule that [name*=""]
    matches nothing plays no role. *)
Inductive AttrTest : Type :=
| AttrPresent (name : string)            (* [name] *)
| AttrEquals (name value : string)       (* [name="value"] *)
| AttrContains (name sub : string).      (* [name*="sub"] *)

(** A compound selector: an optional tag and a list of attribute tests. *)
Record Selector : Type := mkSelector {
  selTag : option string;
  selAttrs : list AttrTest
}.

Definition attrTestHolds (e : Element) (t : AttrTest) : bool :=
  match t with
  | AttrPresent name => hasAttribute e name
  | AttrEquals name value =>
      match getAttribute e name with
      | Some v => String.eqb v value
      | None => false
      end
  | AttrContains name sub =>
      match getAttribute e name with
      | Some v => includes v sub
      | None => false
      end
  end.

Definition matchesSelector (sel : Selector) (e : Element) : bool :=
  match selTag sel with
  | Some t => String.eqb (localName e) t
  | None => true
  end && forallb (attrTestHolds e) (selAttrs sel).

(** [document.querySelector(sel)]: the first match in document order. *)
Definition querySelector (doc : Document) (sel : Selector) : option Element :=
  find (matchesSelector sel) doc.

(** [document.querySelectorAll(sel)] *)
Definition querySelectorAll (doc : Document) (sel : Selector) : list Element :=
  filter (matchesSelector sel) doc.

End Dom.

Import Dom.

(** ** The mute control of the page *)

Module MuteButton.

(** The microphone test [findMuteButton] applies to every candidate. *)
Definition isMicrophoneButton (element : Element) : bool :=
  let ariaLabel := orEmpty (getAttribute element "aria-label") in
  includes ariaLabel "マイク" || includes ariaLabel "Mic"
  || includes ariaLabel "オフ" || includes ariaLabel "オン".

Definition selectors : list Selector :=
  [ mkSelector None [AttrEquals "jsname" "hw0c9"];
    mkSelector (Some "button") [AttrContains "aria-label" "マイク"];
    mkSelector (Some "button") [AttrContains "aria-label" "Mic"];
    mkSelector (Some "button") [AttrContains "aria-label" "オフ"];
    mkSelector (Some "button") [AttrContains "aria-label" "オン"];
    mkSelector (Some "button")
      [AttrPresent "data-is-muted"; AttrContains "aria-label" "マイク"];
    mkSelector (Some "button")
      [AttrPresent "data-is-muted"; AttrContains "aria-label" "Mic"] ].

Definition fallbackSelectors : list Selector :=
  [ mkSelector (Some "button") [AttrPresent "data-is-muted"];
    mkSelector None [AttrEquals "data-is-muted" "true"];
    mkSelector None [AttrEquals "data-is-muted" "false"] ].

(** First loop of [findMuteButton]: one [querySelector] per selector, the
    hit is returned only when it passes the microphone test. *)
Fixpoint findBySelectors (doc : Document) (sels : list Selector)
  : option Element :=
  match sels with
  | [] => None
  | selector :: rest =>
      match querySelector doc selector with
      | Some element =>
          if isMicrophoneButton element then Some element
          else findBySelectors doc rest
      | None => findBySelectors doc rest
      end
  end.

(** Second loop: [querySelectorAll] per fallback selector, the first
    element passing the microphone test wins. *)
Fixpoint findByFallback (doc : Document) (sels : list Selector)
  : option Element :=
  match sels with
  | [] => None
  | selector :: rest =>
      match find isMicrophoneButton (querySelectorAll doc selector) with
      | Some element => Some element
      | None => findByFallback doc rest
      end
  end.

(** [findMuteButton()]: [None] is the [null] the script returns when no
    heuristic locates the control. *)
Definition findMuteButton (doc : Document) : option Element :=
  match findBySelectors doc selectors with
  | Some element => Some element
  | None => findByFallback doc fallbackSelectors
  end.

(** The outcome of a [try] body: a value, or an exception. *)
Inductive Outcome (A : Type) : Type :=
| Returns (a : A)
| Throws.
Arguments Returns {A} a.
Arguments Throws {A}.

(** The label probes of [isButtonMuted], in source order. *)
Definition labelProbe (ariaLabel : string) : option bool :=
  if includes ariaLabel "マイクをオフ" || includes ariaLabel "Mic off"
  then Some false
  else if includes ariaLabel "マイクをオン" || includes ariaLabel "Mic on"
  then Some true
  else if includes ariaLabel "ミュート" || includes ariaLabel "Mute"
  then Some true
  else if includes ariaLabel "ミュート解除" || includes ariaLabel "Unmute"
  then Some false
  else None.

(** The class-name probe. *)
Definition classProbe (classes : list string) : bool :=
  existsb (fun cls => includes cls "muted" || includes cls "mute") classes.

(** The [try] body of [isButtonMuted].  The argument is what the caller
    passes: an element, or [null] ([None]), on which the first property
    access throws a [TypeError]. *)
Definition isButtonMuted_try (button : option Element) : Outcome bool :=
  match button with
  | None => Throws
  | Some b =>
      if hasAttribute b "data-is-muted" then
        Returns (match getAttribute b "data-is-muted" with
                 | Some v => String.eqb v "true"
                 | None => false
                 end)
      else
        let ariaLabel := orEmpty (getAttribute b "aria-label") in
        match labelProbe ariaLabel with
        | Some answer => Returns answer
        | None =>
            if classProbe (classList b) then Returns true
            else Returns false
        end
  end.

(** [isButtonMuted(button)]: the [catch] clause answers [false]. *)
Definition isButtonMuted (button : option Element) : bool :=
  match isButtonMuted_try button with
  | Returns answer => answer
  | Throws => false
  end.

End MuteButton.

Import MuteButton.

(** ** The monitor *)

Module Monitor.

Local Open Scope float_scope.

(** The messages the content script sends to the background script. *)
Inductive MessageType : Type := AUTO_MUTED | AUTO_UNMUTED.

(** What a tick does to the outside world.  [SimulateMuteKey] is the
    synthesis of the Ctrl+D / Cmd+D shortcut by [simulateMuteKey];
    [SendMessage] is [chrome.runtime.sendMessage]; [ScheduleTick] is the
    [setTimeout] that re-arms [monitorAudioLevel]; [RestartMonitoring] is
    [restartMonitoring]'s teardown followed by the delayed [init]. *)
Inductive Effect : Type :=
| SimulateMuteKey
| SendMessage (type : MessageType) (timestamp : float)
| ScheduleTick (delayMs : Z)
| RestartMonitoring.

(** The fields of [AudioLevelMonitor] the monitoring loop reads or writes.
    [analyser] and [dataArray] record whether the field holds an object
    ([true]) or [null]; [originalMuteState] is a boolean or [undefined]
    ([None]). The debug overlay and console logging are not modelled. *)
Record AudioLevelMonitor : Type := mkMonitor {
  analyser : bool;
  dataArray : bool;
  isMonitoring : bool;
  enabled : bool;
  volumeThreshold : float;
  silenceDuration : float;
  maxSilenceDuration : float;
  isMuted : bool;
  originalMuteState : option bool;
  lastUnmuteTime : float;
  unmuteCooldown : float;
  lastMuteState : bool
}.

Definition set_analyser (v : bool) (m : AudioLevelMonitor) :=
  mkMonitor v (dataArray m) (isMonitoring m) (enabled m) (volumeThreshold m)
    (silenceDuration m) (maxSilenceDuration m) (isMuted m)
    (originalMuteState m) (lastUnmuteTime m) (unmuteCooldown m)
    (lastMuteState m).

Definition set_isMonitoring (v : bool) (m : AudioLevelMonitor) :=
  mkMonitor (analyser m) (dataArray m) v (enabled m) (volumeThreshold m)
    (silenceDuration m) (maxSilenceDuration m) (isMuted m)
    (originalMuteState m) (lastUnmuteTime m) (unmuteCooldown m)
    (lastMuteState m).

Definition set_silenceDuration (v : float) (m : AudioLevelMonitor) :=
  mkMonitor (analyser m) (dataArray m) (isMonitoring m) (enabled m)
    (volumeThreshold m) v (maxSilenceDuration m) (isMuted m)
    (originalMuteState m) (lastUnmuteTime m) (unmuteCooldown m)
    (lastMuteState m).

Definition set_isMuted (v : bool) (m : AudioLevelMonitor) :=
  mkMonitor (analyser m) (dataArray m) (isMonitoring m) (enabled m)
    (volumeThreshold m) (silenceDuration m) (maxSilenceDuration m) v
    (originalMuteState m) (lastUnmuteTime m) (unmuteCooldown m)
    (lastMuteState m).

Definition set_originalMuteState (v : option bool) (m : AudioLevelMonitor) :=
  mkMonitor (analyser m) (dataArray m) (isMonitoring m) (enabled m)
    (volumeThreshold m) (silenceDuration m) (maxSilenceDuration m)
    (isMuted m) v (lastUnmuteTime m) (unmuteCooldown m) (lastMuteState m).

Definition set_lastUnmuteTime (v : float) (m : AudioLevelMonitor) :=
  mkMonitor (analyser m) (dataArray m) (isMonitoring m) (enabled m)
    (volumeThreshold m) (silenceDuration m) (maxSilenceDuration m)
    (isMuted m) (originalMuteState m) v (unmuteCooldown m) (lastMuteState m).

Definition set_lastMuteState (v : bool) (m : AudioLevelMonitor) :=
  mkMonitor (analyser m) (dataArray m) (isMonitoring m) (enabled m)
    (volumeThreshold m) (silenceDuration m) (maxSilenceDuration m)
    (isMuted m) (originalMuteState m) (lastUnmuteTime m) (unmuteCooldown m) v.

(** The state the constructor builds. [enabled] is [undefined] there,
    which the loop's [!this.enabled] treats as [false]. *)
Definition constructed : AudioLevelMonitor :=
  {| analyser := false; dataArray := false; isMonitoring := false;
     enabled := false; volumeThreshold := 0.01; silenceDuration := 0;
     maxSilenceDuration := 3; isMuted := false;
     originalMuteState := Some false; lastUnmuteTime := 0;
     unmuteCooldown := 2; lastMuteState := false |}.

(** The state after [init] has read the stored settings, acquired the
    microphone ([setupAudioContext]) and called [startMonitoring]. *)
Definition started (threshold duration : float) : AudioLevelMonitor :=
  {| analyser := true; dataArray := true; isMonitoring := true;
     enabled := true; volumeThreshold := threshold; silenceDuration := 0;
     maxSilenceDuration := duration; isMuted := false;
     originalMuteState := Some false; lastUnmuteTime := 0;
     unmuteCooldown := 2; lastMuteState := false |}.

(** One entry of the [Uint8Array] as a JavaScript number. *)
Definition byteToNumber (b : Byte.byte) : float :=
  PrimFloat.of_uint63 (Uint63.of_Z (Z.of_N (Byte.to_N b))).

Definition lengthToNumber {A : Type} (l : list A) : float :=
  PrimFloat.of_uint63 (Uint63.of_Z (Z.of_nat (List.length l))).

(** [calculateAverageVolume()], on the contents of [this.dataArray]. *)
Definition calculateAverageVolume (data : list Byte.byte) : float :=
  let sum := fold_left (fun sum b => sum + byteToNumber b) data 0 in
  sum / lengthToNumber data / 255.

(** [checkMuteState()]. [now] is the reading of [Date.now()]; the model
    takes one reading for the whole synchronous tick. *)
Definition checkMuteState (now : float) (doc : Document)
  (m : AudioLevelMonitor) : AudioLevelMonitor :=
  match findMuteButton doc with
  | Some muteButton =>
      let isActuallyMuted := isButtonMuted (Some muteButton) in
      let m1 :=
        if negb (Bool.eqb isActuallyMuted (isMuted m)) then
          let ma :=
            if negb isActuallyMuted && isMuted m
            then set_lastUnmuteTime now m else m in
          let mb := set_isMuted isActuallyMuted ma in
          match originalMuteState mb with
          | Some _ => set_originalMuteState (Some isActuallyMuted) mb
          | None => mb
          end
        else m in
      if negb (Bool.eqb isActuallyMuted (lastMuteState m1)) then
        let mc :=
          if negb isActuallyMuted && lastMuteState m1
          then set_lastUnmuteTime now m1 else m1 in
        set_lastMuteState isActuallyMuted mc
      else m1
  | None => m
  end.

(** [autoMute()] *)
Definition autoMute (now : float) (m : AudioLevelMonitor)
  : AudioLevelMonitor * list Effect :=
  if negb (isMuted m) then
    (set_isMuted true (set_originalMuteState (Some (isMuted m)) m),
     [SimulateMuteKey; SendMessage AUTO_MUTED now])
  else (m, []).

(** [autoUnmute()] *)
Definition autoUnmute (now : float) (m : AudioLevelMonitor)
  : AudioLevelMonitor * list Effect :=
  if isMuted m then
    (set_lastUnmuteTime now (set_isMuted false m),
     [SimulateMuteKey; SendMessage AUTO_UNMUTED now])
  else (m, []).

(** [stopMonitoring()], on the modelled fields. *)
Definition stopMonitoring (m : AudioLevelMonitor) : AudioLevelMonitor :=
  set_analyser false (set_isMonitoring false m).

(** [restartMonitoring()] *)
Definition restartMonitoring (m : AudioLevelMonitor)
  : AudioLevelMonitor * list Effect :=
  (stopMonitoring m, [RestartMonitoring]).

(** The cooldown test of the silent branch. *)
Definition isInCooldown (now : float) (m : AudioLevelMonitor) : bool :=
  let timeSinceLastUnmute := (now - lastUnmuteTime m) / 1000 in
  timeSinceLastUnmute <? unmuteCooldown m.

(** The silence/speech decision of [monitorAudioLevel], after the sample
    has been taken and the mute state checked. *)
Definition decide (now : float) (averageVolume : float)
  (m : AudioLevelMonitor) : AudioLevelMonitor * list Effect :=
  if averageVolume <? volumeThreshold m then
    let m' := set_silenceDuration (silenceDuration m + 0.1) m in
    if (maxSilenceDuration m' <=? silenceDuration m')
       && negb (isMuted m') && negb (isInCooldown now m')
    then autoMute now m'
    else (m', [])
  else
    let m' := set_silenceDuration 0 m in
    if isMuted m' then autoUnmute now m' else (m', []).

(** [monitorAudioLevel()]: one tick. [freq] is the contents of
    [this.dataArray] after [getByteFrequencyData] filled it. *)
Definition monitorAudioLevel (now : float) (doc : Document)
  (freq : list Byte.byte) (m : AudioLevelMonitor)
  : AudioLevelMonitor * list Effect :=
  if negb (isMonitoring m) || negb (enabled m) then (m, [])
  else if negb (analyser m) || negb (dataArray m) then restartMonitoring m
  else
    let averageVolume := calculateAverageVolume freq in
    let m1 := checkMuteState now doc m in
    let (m2, effects) := decide now averageVolume m1 in
    (m2, effects ++ [ScheduleTick 100]).

(** What the world presents to one tick. *)
Record TickInput : Type := mkTick {
  tickNow : float;
  tickDoc : Document;
  tickFreq : list Byte.byte
}.

Definition isScheduleTick (e : Effect) : bool :=
  match e with ScheduleTick _ => true | _ => false end.

(** The loop: a tick runs on the next input only when the previous tick
    re-armed the timer. The result lists the effects tick by tick. *)
Fixpoint run (inputs : list TickInput) (m : AudioLevelMonitor)
  : AudioLevelMonitor * list (list Effect) :=
  match inputs with
  | [] => (m, [])
  | i :: rest =>
      let (m', effects) :=
        monitorAudioLevel (tickNow i) (tickDoc i) (tickFreq i) m in
      if existsb isScheduleTick effects then
        let (m'', trace) := run rest m' in (m'', effects :: trace)
      else (m', [effects])
  end.

Definition isMuteDispatch (e : Effect) : bool :=
  match e with SendMessage AUTO_MUTED _ => true | _ => false end.

Definition isUnmuteDispatch (e : Effect) : bool :=
  match e with SendMessage AUTO_UNMUTED _ => true | _ => false end.

Definition isKeyPress (e : Effect) : bool :=
  match e with SimulateMuteKey => true | _ => false end.

(** Number of mute (unmute) actions among the effects of a tick. *)
Definition muteDispatches (effects : list Effect) : nat :=
  List.length (filter isMuteDispatch effects).

Definition unmuteDispatches (effects : list Effect) : nat :=
  List.length (filter isUnmuteDispatch effects).

Definition keyPresses (effects : list Effect) : nat :=
  List.length (filter isKeyPress effects).

(** The silence timer after [n] consecutive silent ticks. *)
Fixpoint accumulate (n : nat) (elapsed : float) : float :=
  match n with
  | O => elapsed
  | S k => accumulate k (elapsed + 0.1)
  end.

End Monitor.

Import Monitor.

(** ** The userscript variant

    The Tampermonkey variant of the monitor ([auto-3s-mute.user.js]; the
    debug-logging userscript has the same loop).  It has no cooldown, reads
    the mute state as "some mute marker is on the page", and acts by
    clicking a button it looks up at dispatch time. *)

Module UserScript.

Local Open Scope float_scope.

Inductive Effect : Type :=
| Click (target : Element)
| Notification (title text : string)
| ScheduleTick (delayMs : Z).

Record AudioLevelMonitor : Type := mkMonitor {
  isMonitoring : bool;
  volumeThreshold : float;
  silenceDuration : float;
  maxSilenceDuration : float;
  isMuted : bool;
  originalMuteState : bool
}.

(** [querySelector(a) || querySelector(b) || ...] *)
Fixpoint firstMatch (doc : Document) (sels : list Selector)
  : option Element :=
  match sels with
  | [] => None
  | sel :: rest =>
      match querySelector doc sel with
      | Some e => Some e
      | None => firstMatch doc rest
      end
  end.

Definition mutedMarkers : list Selector :=
  [ mkSelector None [AttrEquals "data-is-muted" "true"];
    mkSelector None [AttrContains "aria-label" "ミュート"];
    mkSelector None [AttrContains "aria-label" "Mute"] ].

Definition muteButtons : list Selector :=
  [ mkSelector None [AttrEquals "data-is-muted" "false"];
    mkSelector None [AttrContains "aria-label" "ミュート解除"];
    mkSelector None [AttrContains "aria-label" "Unmute"];
    mkSelector None [AttrEquals "jsname" "BOHaEe"];
    mkSelector None [AttrContains "data-tooltip" "ミュート"];
    mkSelector None [AttrContains "data-tooltip" "Mute"] ].

Definition unmuteButtons : list Selector :=
  [ mkSelector None [AttrEquals "data-is-muted" "true"];
    mkSelector None [AttrContains "aria-label" "ミュート解除"];
    mkSelector None [AttrContains "aria-label" "Unmute"] ].

(** [checkMuteState()] *)
Definition checkMuteState (doc : Document) (m : AudioLevelMonitor)
  : AudioLevelMonitor :=
  let muteButton := firstMatch doc mutedMarkers in
  mkMonitor (isMonitoring m) (volumeThreshold m) (silenceDuration m)
    (maxSilenceDuration m)
    (match muteButton with Some _ => true | None => false end)
    (originalMuteState m).

(** [autoMute()]; [DEFAULT_SETTINGS.showNotifications] is [true]. *)
Definition autoMute (doc : Document) (m : AudioLevelMonitor)
  : AudioLevelMonitor * list Effect :=
  match firstMatch doc muteButtons with
  | Some muteButton =>
      if negb (isMuted m) then
        (mkMonitor (isMonitoring m) (volumeThreshold m) (silenceDuration m)
           (maxSilenceDuration m) (isMuted m) (isMuted m),
         [Click muteButton;
          Notification "自動ミュート"
            "音声が検出されなくなったため、自動的にミュートしました"])
      else (m, [])
  | None => (m, [])
  end.

(** [autoUnmute()] *)
Definition autoUnmute (doc : Document) (m : AudioLevelMonitor)
  : AudioLevelMonitor * list Effect :=
  match firstMatch doc unmuteButtons with
  | Some unmuteButton =>
      if isMuted m then
        (m,
         [Click unmuteButton;
          Notification "自動ミュート解除"
            "音声が検出されたため、自動的にミュートを解除しました"])
      else (m, [])
  | None => (m, [])
  end.

Definition set_silenceDuration (v : float) (m : AudioLevelMonitor) :=
  mkMonitor (isMonitoring m) (volumeThreshold m) v (maxSilenceDuration m)
    (isMuted m) (originalMuteState m).

(** [monitorAudioLevel()] *)
Definition monitorAudioLevel (doc : Document) (freq : list Byte.byte)
  (m : AudioLevelMonitor) : AudioLevelMonitor * list Effect :=
  if negb (isMonitoring m) then (m, [])
  else
    let averageVolume := Monitor.calculateAverageVolume freq in
    let m1 := checkMuteState doc m in
    let (m2, effects) :=
      if averageVolume <? volumeThreshold m1 then
        let m' := set_silenceDuration (silenceDuration m1 + 0.1) m1 in
        if (maxSilenceDuration m' <=? silenceDuration m') && negb (isMuted m')
        then autoMute doc m'
        else (m', [])
      else
        let m' := set_silenceDuration 0 m1 in
        if isMuted m' && Bool.eqb (originalMuteState m') false
        then autoUnmute doc m'
        else (m', []) in
    (m2, effects ++ [ScheduleTick 100]).

End UserScript.

(** ** Vocabulary of the statements *)

Module Vocabulary.

Local Open Scope float_scope.

(** What reconciliation reads from the page: the state of the control,
    or nothing when the control is not located. *)
Definition observation (doc : Document) : option bool :=
  match findMuteButton doc with
  | Some b => Some (isButtonMuted (Some b))
  | None => None
  end.

(** The control was located and read as [observed]. *)
Definition observes (doc : Document) (observed : bool) : Prop :=
  observation doc = Some observed.

(** Nothing on the page contradicts an unmuted belief: the control is
    missing, or it reads unmuted. *)
Definition observedUnmuted (doc : Document) : bool :=
  match observation doc with
  | Some true => false
  | _ => true
  end.

(** The guards at the top of [monitorAudioLevel] all pass. *)
Definition ticking (m : AudioLevelMonitor) : bool :=
  isMonitoring m && enabled m && analyser m && dataArray m.

(** A silent tick on a page that does not contradict an unmuted belief. *)
Definition quietTick (threshold : float) (i : TickInput) : bool :=
  observedUnmuted (tickDoc i)
  && (calculateAverageVolume (tickFreq i) <? threshold).

(** The answer of [isButtonMuted] when the attribute is absent. *)
Definition fallbackAnswer (b : Element) : bool :=
  match labelProbe (orEmpty (getAttribute b "aria-label")) with
  | Some answer => answer
  | None => classProbe (classList b)
  end.

End Vocabulary.

Import Vocabulary.

(** ** Concrete pages, samples and clock readings used in the examples *)

Module Examples.

Local Open Scope float_scope.

(** The microphone button of the page while the microphone is live. *)
Definition micLive : Element :=
  mkElement "button"
    [("jsname", "hw0c9"); ("aria-label", "マイクをオフ");
     ("data-is-muted", "false")] [].

(** The same button while the microphone is muted. *)
Definition micMuted : Element :=
  mkElement "button"
    [("jsname", "hw0c9"); ("aria-label", "マイクをオン");
     ("data-is-muted", "true")] [].

(** A frequency snapshot of a silent room and one of a loud one, for the
    128 bins [fftSize = 256] gives. *)
Definition silentBins : list Byte.byte := repeat x00 128.
Definition loudBins : list Byte.byte := repeat xff 128.

(** A reading of [Date.now()]. *)
Definition clock : float := 1700000000000.

(** [n] silent ticks, 100 ms apart from [t] on, on the page [doc]. *)
Fixpoint silentTicks (n : nat) (t : float) (doc : Document)
  : list TickInput :=
  match n with
  | O => []
  | S k => mkTick t doc silentBins :: silentTicks k (t + 100) doc
  end.

End Examples.

Import Examples.

(** ** JavaScript values crossing the storage and message boundaries *)

Module Js.

Local Open Scope float_scope.

(** The values [chrome.storage] hands back. *)
Inductive JsValue : Type :=
| JsUndefined
| JsNull
| JsBoolean (b : bool)
| JsNumber (x : float)
| JsString (s : string).

(** Truthiness of a number: every number but [0], [-0] and [NaN]. *)
Definition truthyNumber (x : float) : bool :=
  negb (is_nan x || (x =? 0)).

(** [Boolean(v)] *)
Definition toBoolean (v : JsValue) : bool :=
  match v with
  | JsUndefined | JsNull => false
  | JsBoolean b => b
  | JsNumber x => truthyNumber x
  | JsString s => negb (String.eqb s "")
  end.

(** [x || d] on numbers. *)
Definition orNumber (x d : float) : float :=
  if truthyNumber x then x else d.

(** [v !== false] *)
Definition isNotFalse (v : JsValue) : bool :=
  match v with
  | JsBoolean false => false
  | _ => true
  end.

(** A number that carries no minus sign: [+0], a positive finite number,
    [+Infinity], or [NaN]. *)
Definition signOk (f : spec_float) : Prop :=
  match f with
  | S754_nan => True
  | S754_zero s | S754_infinity s | S754_finite s _ _ => s = false
  end.

End Js.

Import Js.

(** ** The monitor's lifecycle: start, stop, settings changes, the page's
    events and the debug console *)

Module Lifecycle.

Local Open Scope float_scope.

Definition set_volumeThreshold (v : float) (m : AudioLevelMonitor) :=
  mkMonitor (analyser m) (dataArray m) (isMonitoring m) (enabled m) v
    (silenceDuration m) (maxSilenceDuration m) (isMuted m)
    (originalMuteState m) (lastUnmuteTime m) (unmuteCooldown m)
    (lastMuteState m).

Definition set_maxSilenceDuration (v : float) (m : AudioLevelMonitor) :=
  mkMonitor (analyser m) (dataArray m) (isMonitoring m) (enabled m)
    (volumeThreshold m) (silenceDuration m) v (isMuted m)
    (originalMuteState m) (lastUnmuteTime m) (unmuteCooldown m)
    (lastMuteState m).

Definition set_enabled (v : bool) (m : AudioLevelMonitor) :=
  mkMonitor (analyser m) (dataArray m) (isMonitoring m) v
    (volumeThreshold m) (silenceDuration m) (maxSilenceDuration m)
    (isMuted m) (originalMuteState m) (lastUnmuteTime m) (unmuteCooldown m)
    (lastMuteState m).

(** [startMonitoring()]: the first tick runs at once. *)
Definition startMonitoring (now : float) (doc : Document)
  (freq : list Byte.byte) (m : AudioLevelMonitor)
  : AudioLevelMonitor * list Effect :=
  if isMonitoring m then (m, [])
  else monitorAudioLevel now doc freq (set_isMonitoring true m).

(** [ensureMonitoring()] *)
Definition ensureMonitoring (m : AudioLevelMonitor)
  : AudioLevelMonitor * list Effect :=
  if negb (enabled m) then (m, [])
  else if negb (isMonitoring m) || negb (analyser m)
  then restartMonitoring m
  else (m, []).

(** The [visibilitychange] listener of [setupMeetStateWatcher]. *)
Definition onVisibilityChange (hidden : bool) (m : AudioLevelMonitor)
  : AudioLevelMonitor * list Effect :=
  if negb hidden && enabled m then ensureMonitoring m else (m, []).

(** [adjustVolumeThreshold(newThreshold)] *)
Definition adjustVolumeThreshold (newThreshold : float)
  (m : AudioLevelMonitor) : AudioLevelMonitor :=
  set_volumeThreshold newThreshold m.

(** [autoMuteDebug.toggleMute()] *)
Definition toggleMute (now : float) (m : AudioLevelMonitor)
  : AudioLevelMonitor * list Effect :=
  if isMuted m then autoUnmute now m else autoMute now m.

(** The [changes] object of [chrome.storage.onChanged]: for each key the
    listener looks at, the [newValue] when the key changed. The listener
    also copies [showNotifications] into a field the loop never reads,
    which is not among the modelled fields. *)
Record Changes : Type := mkChanges {
  chVolumeThreshold : option JsValue;
  chSilenceDuration : option JsValue;
  chEnabled : option JsValue
}.

Section Builtins.

(** [parseFloat] and [parseInt] are taken as given. *)
Variables (parseFloat parseInt : JsValue -> float).

(** The [chrome.storage.onChanged] listener, on an existing monitor. *)
Definition onStorageChanged (namespace : string) (changes : Changes)
  (m : AudioLevelMonitor) : AudioLevelMonitor :=
  if String.eqb namespace "sync" then
    let m1 :=
      match chVolumeThreshold changes with
      | Some newValue =>
          set_volumeThreshold (orNumber (parseFloat newValue) 0.01) m
      | None => m
      end in
    let m2 :=
      match chSilenceDuration changes with
      | Some newValue =>
          set_maxSilenceDuration (orNumber (parseInt newValue) 3) m1
      | None => m1
      end in
    match chEnabled changes with
    | Some newValue => set_enabled (toBoolean newValue) m2
    | None => m2
    end
  else m.

(** What can happen to the page's monitor: the armed timer fires, the
    stored settings change, the tab's visibility changes, or the delayed
    [ensureMonitoring] of the URL watcher comes due. *)
Inductive Event : Type :=
| TimerFires (i : TickInput)
| StorageChanged (namespace : string) (changes : Changes)
| VisibilityChanged (hidden : bool)
| EnsureMonitoringDue.

(** The monitor together with whether a [setTimeout] for the next tick is
    pending. *)
Record Page : Type := mkPage {
  monitor : AudioLevelMonitor;
  timerArmed : bool
}.

(** A page whose loop has stopped although the monitor still counts as
    monitoring with an analyser. *)
Definition stalled (p : Page) : Prop :=
  timerArmed p = false /\ isMonitoring (monitor p) = true /\
  analyser (monitor p) = true.

Definition step (e : Event) (p : Page) : Page * list Effect :=
  match e with
  | TimerFires i =>
      if timerArmed p then
        let (m', effects) :=
          monitorAudioLevel (tickNow i) (tickDoc i) (tickFreq i) (monitor p) in
        (mkPage m' (existsb isScheduleTick effects), effects)
      else (p, [])
  | StorageChanged namespace changes =>
      (mkPage (onStorageChanged namespace changes (monitor p)) (timerArmed p),
       [])
  | VisibilityChanged hidden =>
      let (m', effects) := onVisibilityChange hidden (monitor p) in
      (mkPage m' (timerArmed p), effects)
  | EnsureMonitoringDue =>
      let (m', effects) := ensureMonitoring (monitor p) in
      (mkPage m' (timerArmed p), effects)
  end.

Fixpoint steps (events : list Event) (p : Page) : Page * list (list Effect) :=
  match events with
  | [] => (p, [])
  | e :: rest =>
      let (p', effects) := step e p in
      let (p'', trace) := steps rest p' in
      (p'', effects :: trace)
  end.

End Builtins.

End Lifecycle.

Import Lifecycle.

(** ** The background script *)

Module Background.

Local Open Scope float_scope.

(** [this.stats]; [lastActivity] is an ISO time string or [null]. *)
Record Stats : Type := mkStats {
  autoMuteCount : float;
  autoUnmuteCount : float;
  lastActivity : option string
}.

(** A runtime message: its [type] and, when sent by the content script,
    its [timestamp]. *)
Record Message : Type := mkMessage {
  msgType : string;
  msgTimestamp : option float
}.

Inductive Response : Type :=
| StatsResponse (stats : Stats)
| SuccessResponse.

(** What handling a message does besides updating the statistics. *)
Inductive Action : Type :=
| SendResponse (r : Response)
| ShowNotification (title message : string).

(** The statistics of the constructor and of [resetStats()]. *)
Definition noStats : Stats := mkStats 0 0 None.

(** [handleAutoMuted]; [nowIso] is [new Date().toISOString()]. *)
Definition handleAutoMuted (nowIso : string) (s : Stats)
  : Stats * list Action :=
  (mkStats (autoMuteCount s + 1) (autoUnmuteCount s) (Some nowIso),
   [ShowNotification "自動ミュート"
      "音声が検出されなくなったため、自動的にミュートしました"]).

(** [handleAutoUnmuted] *)
Definition handleAutoUnmuted (nowIso : string) (s : Stats)
  : Stats * list Action :=
  (mkStats (autoMuteCount s) (autoUnmuteCount s + 1) (Some nowIso),
   [ShowNotification "自動ミュート解除"
      "音声が検出されたため、自動的にミュートを解除しました"]).

(** [handleMessage] *)
Definition handleMessage (nowIso : string) (message : Message) (s : Stats)
  : Stats * list Action :=
  if String.eqb (msgType message) "AUTO_MUTED" then handleAutoMuted nowIso s
  else if String.eqb (msgType message) "AUTO_UNMUTED"
  then handleAutoUnmuted nowIso s
  else if String.eqb (msgType message) "GET_STATS"
  then (s, [SendResponse (StatsResponse s)])
  else if String.eqb (msgType message) "RESET_STATS"
  then (noStats, [SendResponse SuccessResponse])
  else (s, []).

(** Messages handled one after the other, each at its own time. *)
Fixpoint handleAll (messages : list (string * Message)) (s : Stats)
  : Stats * list (list Action) :=
  match messages with
  | [] => (s, [])
  | (nowIso, message) :: rest =>
      let (s', actions) := handleMessage nowIso message s in
      let (s'', trace) := handleAll rest s' in
      (s'', actions :: trace)
  end.

(** How [chrome.notifications.create] can end. *)
Inductive CreateOutcome : Type :=
| Created (notificationId : string)
| LastError
| CreateThrows.

(** What [showNotification] finds around it: the stored
    [showNotifications] value, whether the notifications API exists, and
    how a create call with, and one without, an icon would end. *)
Record NotificationEnv : Type := mkEnv {
  storedShowNotifications : JsValue;
  apiAvailable : bool;
  createWithIcon : CreateOutcome;
  createWithoutIcon : CreateOutcome
}.

Inductive NotificationEffect : Type :=
| CreateNotification (iconUrl : option string) (title message : string)
| ConsoleFallback (title message : string).

(** [showNotificationWithoutIcon] *)
Definition showNotificationWithoutIcon (env : NotificationEnv)
  (title message : string) : list NotificationEffect :=
  CreateNotification None title message ::
  match createWithoutIcon env with
  | Created _ => []
  | LastError => [ConsoleFallback title message]
  | CreateThrows => [ConsoleFallback title message]
  end.

(** [showNotification] *)
Definition showNotification (env : NotificationEnv)
  (title message : string) : list NotificationEffect :=
  if isNotFalse (storedShowNotifications env) then
    if apiAvailable env then
      CreateNotification (Some "icons/icon48.svg") title message ::
      match createWithIcon env with
      | Created _ => []
      | LastError => showNotificationWithoutIcon env title message
      | CreateThrows => [ConsoleFallback title message]
      end
    else [ConsoleFallback title message]
  else [].


(** A counter after [n] increments. *)
Fixpoint increments (n : nat) (count : float) : float :=
  match n with
  | O => count
  | S k => increments k (count + 1)
  end.

(** How many of the handled messages have the given type. *)
Definition countType (type : string) (messages : list (string * Message))
  : nat :=
  List.length
    (filter (fun tm => String.eqb (msgType (snd tm)) type) messages).

Definition isFallback (e : NotificationEffect) : bool :=
  match e with ConsoleFallback _ _ => true | _ => false end.

Definition isCreateWithIcon (e : NotificationEffect) : bool :=
  match e with CreateNotification (Some _) _ _ => true | _ => false end.

Definition isCreateWithoutIcon (e : NotificationEffect) : bool :=
  match e with CreateNotification None _ _ => true | _ => false end.

Definition isCreated (o : CreateOutcome) : bool :=
  match o with Created _ => true | _ => false end.

Definition isLastError (o : CreateOutcome) : bool :=
  match o with LastError => true | _ => false end.

(** Some create call of [showNotification] ends with a notification. *)
Definition shown (env : NotificationEnv) : bool :=
  apiAvailable env
  && (isCreated (createWithIcon env)
      || isLastError (createWithIcon env)
         && isCreated (createWithoutIcon env)).

End Background.

(** ** The options page *)

Module Options.

Local Open Scope float_scope.

(** [this.settings] of [OptionsController]. *)
Record Settings : Type := mkSettings {
  enabled : bool;
  volumeThreshold : float;
  silenceDuration : float;
  showNotifications : bool;
  notificationSound : bool;
  monitoringInterval : float;
  sensitivityMode : string
}.

(** Writes to the page's controls: [element.value = v],
    [element.textContent = v.toFixed(2)] and [element.textContent = v]. *)
Inductive UiWrite : Type :=
| SetValue (element : string) (v : float)
| SetTextFixed2 (element : string) (v : float)
| SetText (element : string) (v : float).

Definition withThresholdAndInterval (threshold interval : float)
  (s : Settings) : Settings :=
  mkSettings (enabled s) threshold (silenceDuration s) (showNotifications s)
    (notificationSound s) interval (sensitivityMode s).

(** [applySensitivityMode()] *)
Definition applySensitivityMode (s : Settings) : Settings * list UiWrite :=
  let s' :=
    if String.eqb (sensitivityMode s) "high"
    then withThresholdAndInterval 0.05 50 s
    else if String.eqb (sensitivityMode s) "low"
    then withThresholdAndInterval 0.2 200 s
    else if String.eqb (sensitivityMode s) "normal"
    then withThresholdAndInterval 0.1 100 s
    else s in
  (s',
   [SetValue "volumeThreshold" (volumeThreshold s');
    SetTextFixed2 "thresholdValue" (volumeThreshold s');
    SetValue "monitoringInterval" (monitoringInterval s');
    SetText "intervalValue" (monitoringInterval s')]).

(** The [change] listener of the sensitivity selector. *)
Definition onSensitivityModeChange (value : string) (s : Settings)
  : Settings * list UiWrite :=
  applySensitivityMode
    (mkSettings (enabled s) (volumeThreshold s) (silenceDuration s)
       (showNotifications s) (notificationSound s) (monitoringInterval s)
       value).

(** The three modes that carry fixed values. *)
Definition isPreset (mode : string) : bool :=
  String.eqb mode "high" || String.eqb mode "low" || String.eqb mode "normal".

End Options.

(** ** The userscript's loop *)

Module UserScriptLoop.

Definition isScheduleTick (e : UserScript.Effect) : bool :=
  match e with UserScript.ScheduleTick _ => true | _ => false end.

Definition isClick (e : UserScript.Effect) : bool :=
  match e with UserScript.Click _ => true | _ => false end.

(** The userscript's ticks, one per page and snapshot, as long as each
    tick re-arms the timer. *)
Fixpoint run (inputs : list (Document * list Byte.byte))
  (m : UserScript.AudioLevelMonitor)
  : UserScript.AudioLevelMonitor * list (list UserScript.Effect) :=
  match inputs with
  | [] => (m, [])
  | (doc, freq) :: rest =>
      let (m', effects) := UserScript.monitorAudioLevel doc freq m in
      if existsb isScheduleTick effects then
        let (m'', trace) := run rest m' in (m'', effects :: trace)
      else (m', [effects])
  end.

(** The page shows a muted marker, which is all the userscript's
    [checkMuteState] looks at. *)
Definition mutedMarker (doc : Document) : bool :=
  match UserScript.firstMatch doc UserScript.mutedMarkers with
  | Some _ => true
  | None => false
  end.

(** Number of button clicks among the effects of a tick. *)
Definition clicks (effects : list UserScript.Effect) : nat :=
  List.length (filter isClick effects).

(** The state the userscript's constructor and [startMonitoring] leave,
    for the given stored settings. *)
Definition started (threshold duration : float)
  : UserScript.AudioLevelMonitor :=
  UserScript.mkMonitor true threshold 0 duration false false.

End UserScriptLoop.

(** ** Facts about JavaScript numbers

    The comparisons and the addition the loop uses, read through the
    IEEE 754 specification of the primitive floats. *)

Section NumberFacts.

Local Open Scope float_scope.

Lemma SFcompare_antisym (a b : spec_float) (c : comparison) :
  SFcompare a b = Some c -> SFcompare b a = Some (CompOpp c).
Proof.
  destruct a as [sa|sa| |sa ma ea], b as [sb|sb| |sb mb eb]; simpl;
    try discriminate; intros H; injection H as <-;
    try solve [ repeat match goal with s : bool |- _ => destruct s end;
                reflexivity ].
  rewrite (Z.compare_antisym ea eb).
  destruct sa, sb; simpl; try reflexivity;
    destruct (ea ?= eb)%Z; simpl; try reflexivity.
  - rewrite (Pos.compare_cont_antisym ma mb Eq). reflexivity.
  - rewrite (Pos.compare_cont_antisym ma mb Eq). reflexivity.
Qed.

Lemma leb_true_ltb_false (x y : float) :
  (x <=? y) = true -> (y <? x) = false.
Proof.
  rewrite FloatAxioms.leb_spec, FloatAxioms.ltb_spec. unfold SFleb, SFltb.
  destruct (SFcompare (Prim2SF x) (Prim2SF y)) as [c|] eqn:E; [|discriminate].
  apply SFcompare_antisym in E. rewrite E.
  destruct c; simpl; congruence.
Qed.

Lemma eqb_true_ltb_false (x y : float) :
  (x =? y) = true -> (x <? y) = false.
Proof.
  rewrite FloatAxioms.eqb_spec, FloatAxioms.ltb_spec. unfold SFeqb, SFltb.
  destruct (SFcompare (Prim2SF x) (Prim2SF y)) as [[ | | ]|]; congruence.
Qed.

Lemma eqb_true_leb_true (x y : float) :
  (x =? y) = true -> (y <=? x) = true.
Proof.
  rewrite FloatAxioms.eqb_spec, FloatAxioms.leb_spec. unfold SFeqb, SFleb.
  destruct (SFcompare (Prim2SF x) (Prim2SF y)) as [c|] eqn:E; [|discriminate].
  apply SFcompare_antisym in E. rewrite E.
  destruct c; simpl; congruence.
Qed.

Lemma shr_1_nonneg (mrs : shr_record) :
  (0 <= shr_m mrs)%Z -> (0 <= shr_m (shr_1 mrs))%Z.
Proof.
  destruct mrs as [m r s]; simpl.
  destruct m as [|p|p]; simpl; try lia.
  - destruct p; simpl; lia.
Qed.

Lemma iter_shr_1_nonneg (p : positive) (mrs : shr_record) :
  (0 <= shr_m mrs)%Z -> (0 <= shr_m (iter_pos shr_1 p mrs))%Z.
Proof.
  revert mrs. induction p; intros mrs H; simpl; auto using shr_1_nonneg.
Qed.

Lemma shr_fexp_nonneg (m e : Z) (l : location) :
  (0 <= m)%Z -> (0 <= shr_m (fst (shr_fexp prec emax m e l)))%Z.
Proof.
  intros H. unfold shr_fexp, shr.
  assert (H0 : (0 <= shr_m (shr_record_of_loc m l))%Z).
  { destruct l as [|[ | | ]]; simpl; exact H. }
  destruct (fexp prec emax (Zdigits2 m + e) - e)%Z; simpl; auto.
  apply iter_shr_1_nonneg, H0.
Qed.

Lemma round_nearest_even_nonneg (m : Z) (l : location) :
  (0 <= m)%Z -> (0 <= round_nearest_even m l)%Z.
Proof.
  intros H. unfold round_nearest_even.
  destruct l as [|[ | | ]]; try lia. destruct (Z.even m); lia.
Qed.

Lemma binary_round_aux_nonneg (mx ex : Z) (lx : location) :
  (0 <= mx)%Z ->
  SFleb (S754_zero false) (binary_round_aux prec emax false mx ex lx) = true.
Proof.
  intros H. unfold binary_round_aux.
  pose proof (shr_fexp_nonneg mx ex lx H) as H1.
  destruct (shr_fexp prec emax mx ex lx) as [mrs' e']. simpl in H1.
  pose proof (shr_fexp_nonneg _ e' loc_Exact
                (round_nearest_even_nonneg _ (loc_of_shr_record mrs') H1)) as H2.
  destruct (shr_fexp prec emax _ e' loc_Exact) as [mrs'' e'']. simpl in H2.
  destruct (shr_m mrs'') as [|p|p]; try reflexivity.
  - destruct (e'' <=? emax - prec)%Z; reflexivity.
  - lia.
Qed.

Lemma add_tenth_nonneg (s : float) :
  (0 <=? s) = true -> (0 <=? s + 0.1) = true.
Proof.
  rewrite !FloatAxioms.leb_spec, FloatAxioms.add_spec.
  change (Prim2SF 0) with (S754_zero false).
  change (Prim2SF 0.1) with (S754_finite false 7205759403792794 (-56)).
  destruct (Prim2SF s) as [sx|sx| |sx mx ex]; simpl; try discriminate.
  - reflexivity.
  - destruct sx; [discriminate | reflexivity].
  - destruct sx; [discriminate | intros _].
    unfold SF64add, SFadd. simpl cond_Zopp.
    unfold binary_normalize.
    match goal with |- context [(Z.pos ?a + Z.pos ?b)%Z] =>
      change (Z.pos a + Z.pos b)%Z with (Z.pos (a + b)) end.
    unfold binary_round.
    destruct (shl_align _ _ _) as [mz ez].
    apply binary_round_aux_nonneg. lia.
Qed.

Lemma ltb_true_leb_false (x y : float) :
  (x <? y) = true -> (y <=? x) = false.
Proof.
  intros H. destruct (y <=? x) eqn:E; [|reflexivity].
  apply leb_true_ltb_false in E. congruence.
Qed.

(** The timer of [n] silent ticks, unfolded from the last tick. *)
Lemma accumulate_succ (n : nat) (elapsed : float) :
  accumulate (S n) elapsed = accumulate n elapsed + 0.1.
Proof.
  revert elapsed. induction n as [|n IH]; intros elapsed; [reflexivity|].
  change (accumulate (S (S n)) elapsed) with (accumulate (S n) (elapsed + 0.1)).
  rewrite IH. reflexivity.
Qed.

Lemma accumulate_nonneg (n : nat) (elapsed : float) :
  (0 <=? elapsed) = true -> (0 <=? accumulate n elapsed) = true.
Proof.
  revert elapsed. induction n as [|n IH]; intros elapsed H; simpl; auto.
  apply IH, add_tenth_nonneg, H.
Qed.

(** A finite clock reading minus itself is [+0]. *)
Lemma sub_self_finite (t : float) :
  is_finite t = true -> Prim2SF (t - t) = S754_zero false.
Proof.
  unfold is_finite, is_nan, is_infinity.
  rewrite !FloatAxioms.eqb_spec, FloatAxioms.abs_spec, FloatAxioms.sub_spec.
  change (Prim2SF infinity) with (S754_infinity false).
  destruct (Prim2SF t) as [s|s| |s mt et]; try destruct s; cbn;
    try discriminate; intros _; try reflexivity;
    rewrite Z.pos_sub_diag; reflexivity.
Qed.

(** At the very instant of a stamp the cooldown window is open. *)
Lemma cooldown_at_stamp (t cooldown : float) :
  is_finite t = true -> (0 <? cooldown) = true ->
  ((t - t) / 1000 <? cooldown) = true.
Proof.
  intros Hf Hc. rewrite FloatAxioms.ltb_spec in *.
  rewrite FloatAxioms.div_spec, (sub_self_finite t Hf).
  exact Hc.
Qed.

End NumberFacts.

(** ** Facts about the reconciliation step *)

Section CheckMuteStateFacts.

Variables (now : float) (doc : Document).


Lemma checkMuteState_not_found (m : AudioLevelMonitor) :
  findMuteButton doc = None -> checkMuteState now doc m = m.
Proof. intros H. unfold checkMuteState. rewrite H. reflexivity. Qed.

Ltac unfold_check H :=
  unfold checkMuteState; rewrite H;
  match goal with
  | |- context [isButtonMuted ?b] => generalize (isButtonMuted b)
  end.

(** The fields reconciliation never writes. *)
Lemma checkMuteState_frame (m : AudioLevelMonitor) :
  let m1 := checkMuteState now doc m in
  analyser m1 = analyser m /\ dataArray m1 = dataArray m /\
  isMonitoring m1 = isMonitoring m /\ enabled m1 = enabled m /\
  volumeThreshold m1 = volumeThreshold m /\
  silenceDuration m1 = silenceDuration m /\
  maxSilenceDuration m1 = maxSilenceDuration m /\
  unmuteCooldown m1 = unmuteCooldown m.
Proof.
  destruct (findMuteButton doc) as [b|] eqn:H.
  - unfold_check H. intros o.
    destruct m as [a d mo en th sd ms im [om|] lu uc lm];
      destruct o, im, lm; cbn; repeat split; reflexivity.
  - rewrite (checkMuteState_not_found m H). cbn. repeat split; reflexivity.
Qed.

(** When the control is found, belief and last observation both end up
    equal to what was read. *)
Lemma checkMuteState_sync (m : AudioLevelMonitor) (observed : bool) :
  observes doc observed ->
  isMuted (checkMuteState now doc m) = observed /\
  lastMuteState (checkMuteState now doc m) = observed.
Proof.
  unfold observes, observation. intros Hobs.
  destruct (findMuteButton doc) as [b|] eqn:H; [|discriminate Hobs].
  injection Hobs as <-. unfold_check H. intros o.
  destruct m as [a d mo en th sd ms im [om|] lu uc lm];
    destruct o, im, lm; cbn; split; reflexivity.
Qed.

(** A muted-to-unmuted flip, against the belief or against the previous
    observation, stamps the unmute time with the current time. *)
Lemma checkMuteState_stamp (m : AudioLevelMonitor) :
  observes doc false ->
  isMuted m = true \/ lastMuteState m = true ->
  lastUnmuteTime (checkMuteState now doc m) = now.
Proof.
  unfold observes, observation. intros Hobs Hflip.
  destruct (findMuteButton doc) as [b|] eqn:H; [|discriminate Hobs].
  injection Hobs as Hb. unfold checkMuteState. rewrite H, Hb.
  destruct m as [a d mo en th sd ms im [om|] lu uc lm]; cbn in *;
    destruct im, lm; cbn; try reflexivity;
    destruct Hflip; discriminate.
Qed.

(** Reconciliation either keeps the stamp or sets it to the current time. *)
Lemma checkMuteState_stamp_cases (m : AudioLevelMonitor) :
  lastUnmuteTime (checkMuteState now doc m) = lastUnmuteTime m \/
  lastUnmuteTime (checkMuteState now doc m) = now.
Proof.
  destruct (findMuteButton doc) as [b|] eqn:H.
  - unfold_check H. intros o.
    destruct m as [a d mo en th sd ms im [om|] lu uc lm];
      destruct o, im, lm; cbn; auto.
  - rewrite (checkMuteState_not_found m H). auto.
Qed.

(** With an unmuted belief, an unmuted previous observation and an
    unmuted page, reconciliation changes nothing. *)
Lemma checkMuteState_idle (m : AudioLevelMonitor) :
  isMuted m = false -> lastMuteState m = false ->
  observedUnmuted doc = true ->
  checkMuteState now doc m = m.
Proof.
  unfold observedUnmuted, observation. intros Him Hlm Hobs.
  destruct (findMuteButton doc) as [b|] eqn:H.
  - unfold checkMuteState. rewrite H.
    destruct (isButtonMuted (Some b)); [discriminate Hobs|].
    rewrite Him. cbn. rewrite Hlm. reflexivity.
  - apply checkMuteState_not_found, H.
Qed.

End CheckMuteStateFacts.

(** ** Facts about one tick *)

Section TickFacts.

Local Open Scope float_scope.


Lemma monitorAudioLevel_ticking now doc freq (m : AudioLevelMonitor) :
  ticking m = true ->
  monitorAudioLevel now doc freq m =
  (fst (decide now (calculateAverageVolume freq) (checkMuteState now doc m)),
   (snd (decide now (calculateAverageVolume freq) (checkMuteState now doc m))
    ++ [ScheduleTick 100])).
Proof.
  unfold ticking, monitorAudioLevel. intros H.
  apply andb_prop in H as [H Hd]. apply andb_prop in H as [H Ha].
  apply andb_prop in H as [Hm He]. rewrite Hm, He, Ha, Hd. cbn.
  destruct (decide _ _ _). reflexivity.
Qed.

Lemma ticking_checkMuteState now doc (m : AudioLevelMonitor) :
  ticking (checkMuteState now doc m) = ticking m.
Proof.
  destruct (checkMuteState_frame now doc m) as (Ha & Hd & Hm & He & _).
  unfold ticking. rewrite Ha, Hd, Hm, He. reflexivity.
Qed.

(** The decision on a silent sample. *)
Lemma decide_silent now sample (m : AudioLevelMonitor) :
  (sample <? volumeThreshold m) = true ->
  decide now sample m =
  let m' := set_silenceDuration (silenceDuration m + 0.1) m in
  if (maxSilenceDuration m <=? silenceDuration m + 0.1)
     && negb (isMuted m) && negb (isInCooldown now m)
  then (set_isMuted true (set_originalMuteState (Some false) m'),
        [SimulateMuteKey; SendMessage AUTO_MUTED now])
  else (m', []).
Proof.
  intros H. unfold decide. rewrite H. cbv zeta.
  change (isInCooldown now (set_silenceDuration _ m)) with (isInCooldown now m).
  cbn [maxSilenceDuration silenceDuration isMuted set_silenceDuration].
  destruct (maxSilenceDuration m <=? silenceDuration m + 0.1);
    destruct (isMuted m) eqn:Him; destruct (isInCooldown now m);
    cbn [andb negb]; try reflexivity.
  unfold autoMute. cbn. rewrite Him. reflexivity.
Qed.

(** The decision on a speech sample. *)
Lemma decide_speech now sample (m : AudioLevelMonitor) :
  (sample <? volumeThreshold m) = false ->
  decide now sample m =
  let m' := set_silenceDuration 0 m in
  if isMuted m
  then (set_lastUnmuteTime now (set_isMuted false m'),
        [SimulateMuteKey; SendMessage AUTO_UNMUTED now])
  else (m', []).
Proof.
  intros H. unfold decide. rewrite H. cbn.
  unfold autoUnmute. cbn. destruct (isMuted m); reflexivity.
Qed.

(** A tick inside the cooldown window of the stamp in force never mutes. *)
Lemma decide_in_cooldown now sample (m : AudioLevelMonitor) :
  isInCooldown now m = true ->
  muteDispatches (snd (decide now sample m)) = 0%nat.
Proof.
  intros H. destruct (sample <? volumeThreshold m) eqn:E.
  - rewrite (decide_silent _ _ _ E). cbv zeta. rewrite H.
    cbn [negb]. rewrite !andb_false_r. reflexivity.
  - rewrite (decide_speech _ _ _ E). cbn. destruct (isMuted m); reflexivity.
Qed.

End TickFacts.

(** ** Facts about runs of silent ticks *)

Section QuietRuns.

Local Open Scope float_scope.


(** A quiet tick on which muting is not due, or is suppressed, only
    advances the silence timer. *)
Lemma tick_suppressed (i : TickInput) (m : AudioLevelMonitor) :
  ticking m = true -> isMuted m = false -> lastMuteState m = false ->
  quietTick (volumeThreshold m) i = true ->
  (maxSilenceDuration m <=? silenceDuration m + 0.1)
    && negb (isInCooldown (tickNow i) m) = false ->
  monitorAudioLevel (tickNow i) (tickDoc i) (tickFreq i) m =
  (set_silenceDuration (silenceDuration m + 0.1) m, [ScheduleTick 100]).
Proof.
  intros Ht Him Hlm Hq Hc. apply andb_prop in Hq as [Hdoc Hs].
  rewrite (monitorAudioLevel_ticking _ _ _ _ Ht).
  rewrite (checkMuteState_idle _ _ _ Him Hlm Hdoc).
  rewrite (decide_silent _ _ _ Hs). cbv zeta. rewrite Him. cbn [negb].
  rewrite andb_true_r, Hc. reflexivity.
Qed.

(** A quiet tick on which muting is due and not suppressed mutes. *)
Lemma tick_mutes (i : TickInput) (m : AudioLevelMonitor) :
  ticking m = true -> isMuted m = false -> lastMuteState m = false ->
  quietTick (volumeThreshold m) i = true ->
  (maxSilenceDuration m <=? silenceDuration m + 0.1) = true ->
  isInCooldown (tickNow i) m = false ->
  monitorAudioLevel (tickNow i) (tickDoc i) (tickFreq i) m =
  (set_isMuted true
     (set_originalMuteState (Some false)
        (set_silenceDuration (silenceDuration m + 0.1) m)),
   [SimulateMuteKey; SendMessage AUTO_MUTED (tickNow i); ScheduleTick 100]).
Proof.
  intros Ht Him Hlm Hq Hr Hc. apply andb_prop in Hq as [Hdoc Hs].
  rewrite (monitorAudioLevel_ticking _ _ _ _ Ht).
  rewrite (checkMuteState_idle _ _ _ Him Hlm Hdoc).
  rewrite (decide_silent _ _ _ Hs). cbv zeta. rewrite Him, Hr, Hc.
  reflexivity.
Qed.

(** The quiet ticks of a run on which muting is not due or is suppressed
    leave everything but the silence timer alone. *)
Lemma run_suppressed (inputs : list TickInput) :
  forall m : AudioLevelMonitor,
  ticking m = true -> isMuted m = false -> lastMuteState m = false ->
  forallb (quietTick (volumeThreshold m)) inputs = true ->
  (forall k i, nth_error inputs k = Some i ->
     (maxSilenceDuration m <=? accumulate (S k) (silenceDuration m))
       && negb (isInCooldown (tickNow i) m) = false) ->
  run inputs m =
  (set_silenceDuration (accumulate (List.length inputs) (silenceDuration m)) m,
   repeat [ScheduleTick 100] (List.length inputs)).
Proof.
  induction inputs as [|i rest IH]; intros m Ht Him Hlm Hq Hsup.
  - destruct m; reflexivity.
  - cbn [forallb] in Hq. apply andb_prop in Hq as [Hi Hrest].
    cbn [run].
    rewrite (tick_suppressed i m Ht Him Hlm Hi (Hsup 0%nat i eq_refl)).
    cbn [existsb isScheduleTick orb].
    rewrite (IH (set_silenceDuration (silenceDuration m + 0.1) m)
               Ht Him Hlm Hrest (fun k j H => Hsup (S k) j H)).
    reflexivity.
Qed.

(** The same run followed by one quiet tick on which muting is due. *)
Lemma run_suppressed_then_mute (inputs : list TickInput) (final : TickInput) :
  forall m : AudioLevelMonitor,
  ticking m = true -> isMuted m = false -> lastMuteState m = false ->
  forallb (quietTick (volumeThreshold m)) inputs = true ->
  quietTick (volumeThreshold m) final = true ->
  (forall k i, nth_error inputs k = Some i ->
     (maxSilenceDuration m <=? accumulate (S k) (silenceDuration m))
       && negb (isInCooldown (tickNow i) m) = false) ->
  (maxSilenceDuration m
     <=? accumulate (S (List.length inputs)) (silenceDuration m)) = true ->
  isInCooldown (tickNow final) m = false ->
  run (inputs ++ [final]) m =
  (set_isMuted true
     (set_originalMuteState (Some false)
        (set_silenceDuration
           (accumulate (S (List.length inputs)) (silenceDuration m)) m)),
   repeat [ScheduleTick 100] (List.length inputs)
   ++ [[SimulateMuteKey; SendMessage AUTO_MUTED (tickNow final);
        ScheduleTick 100]]).
Proof.
  induction inputs as [|i rest IH]; intros m Ht Him Hlm Hq Hf Hsup Hr Hc.
  - cbn [app run]. rewrite (tick_mutes final m Ht Him Hlm Hf Hr Hc).
    reflexivity.
  - cbn [forallb] in Hq. apply andb_prop in Hq as [Hi Hrest].
    cbn [app run].
    rewrite (tick_suppressed i m Ht Him Hlm Hi (Hsup 0%nat i eq_refl)).
    cbn [existsb isScheduleTick orb].
    rewrite (IH (set_silenceDuration (silenceDuration m + 0.1) m)
               Ht Him Hlm Hrest Hf (fun k j H => Hsup (S k) j H) Hr Hc).
    reflexivity.
Qed.

End QuietRuns.

(** ** The decision engine *)

Section DecisionEngine.

Local Open Scope float_scope.

Lemma dispatches_schedule (effects : list Effect) :
  muteDispatches (effects ++ [ScheduleTick 100]) = muteDispatches effects /\
  unmuteDispatches (effects ++ [ScheduleTick 100]) = unmuteDispatches effects.
Proof.
  unfold muteDispatches, unmuteDispatches.
  rewrite !filter_app, !length_app. cbn. split; lia.
Qed.

(** C1. On every tick that runs, with a positive configured duration, one
    mute is dispatched when the silence timer has reached the configured
    duration, the reconciled belief is unmuted and the tick is outside the
    cooldown window; when any of the three fails, no mute is dispatched. *)
Theorem C1_mute_exactly_when now doc freq (m : AudioLevelMonitor) :
  ticking m = true ->
  (0 <? maxSilenceDuration m) = true ->
  let believed := checkMuteState now doc m in
  let result := monitorAudioLevel now doc freq m in
  muteDispatches (snd result) =
  if (maxSilenceDuration m <=? silenceDuration (fst result))
     && negb (isMuted believed) && negb (isInCooldown now believed)
  then 1%nat else 0%nat.
Proof.
  intros Ht Hpos believed result. subst result.
  rewrite (monitorAudioLevel_ticking _ _ _ _ Ht). cbn [fst snd].
  rewrite (proj1 (dispatches_schedule _)). fold believed.
  assert (Hmax : maxSilenceDuration believed = maxSilenceDuration m)
    by apply (checkMuteState_frame now doc m).
  destruct (calculateAverageVolume freq <? volumeThreshold believed) eqn:E.
  - rewrite (decide_silent _ _ _ E). cbv zeta. rewrite Hmax.
    destruct ((maxSilenceDuration m <=? silenceDuration believed + 0.1)
              && negb (isMuted believed) && negb (isInCooldown now believed))
      eqn:C;
      cbn [fst snd silenceDuration set_isMuted set_originalMuteState
           set_silenceDuration];
      rewrite C; reflexivity.
  - rewrite (decide_speech _ _ _ E). cbv zeta.
    assert (Hz : (maxSilenceDuration m <=? 0) = false)
      by (apply ltb_true_leb_false, Hpos).
    destruct (isMuted believed);
      cbn [fst snd silenceDuration set_isMuted set_lastUnmuteTime
           set_silenceDuration];
      rewrite Hz; reflexivity.
Qed.

Lemma C1_mute_exactly_when_witness :
  muteDispatches
    (snd (monitorAudioLevel clock [micLive] silentBins
            (set_silenceDuration (accumulate 29 0) (started 0.01 3))))
  = 1%nat.
Proof.
  rewrite (C1_mute_exactly_when clock [micLive] silentBins
             (set_silenceDuration (accumulate 29 0) (started 0.01 3)));
    reflexivity.
Defined.

(** C3. On a tick whose sample is at or above the threshold and whose
    reconciled belief is muted, exactly one unmute is dispatched on that
    tick, whatever the cooldown stamp, the silence timer or any other
    field holds. *)
Theorem C3_unmute_on_speech now doc freq (m : AudioLevelMonitor) :
  ticking m = true ->
  (volumeThreshold m <=? calculateAverageVolume freq) = true ->
  isMuted (checkMuteState now doc m) = true ->
  snd (monitorAudioLevel now doc freq m) =
    [SimulateMuteKey; SendMessage AUTO_UNMUTED now; ScheduleTick 100] /\
  unmuteDispatches (snd (monitorAudioLevel now doc freq m)) = 1%nat /\
  muteDispatches (snd (monitorAudioLevel now doc freq m)) = 0%nat /\
  isMuted (fst (monitorAudioLevel now doc freq m)) = false.
Proof.
  intros Ht Hs Hm.
  rewrite (monitorAudioLevel_ticking _ _ _ _ Ht). cbn [fst snd].
  assert (Hthr : volumeThreshold (checkMuteState now doc m) = volumeThreshold m)
    by apply (checkMuteState_frame now doc m).
  assert (E : (calculateAverageVolume freq
               <? volumeThreshold (checkMuteState now doc m)) = false)
    by (rewrite Hthr; apply leb_true_ltb_false, Hs).
  rewrite (decide_speech _ _ _ E). cbv zeta. rewrite Hm.
  repeat split.
Qed.

Lemma C3_unmute_on_speech_witness :
  unmuteDispatches
    (snd (monitorAudioLevel clock [micMuted] loudBins
            (set_lastUnmuteTime clock (started 0.01 3)))) = 1%nat.
Proof.
  apply (C3_unmute_on_speech clock [micMuted] loudBins
           (set_lastUnmuteTime clock (started 0.01 3)));
    reflexivity.
Defined.

(** A tick never makes the silence timer negative. *)
Lemma tick_nonneg now doc freq (m : AudioLevelMonitor) :
  (0 <=? silenceDuration m) = true ->
  (0 <=? silenceDuration (fst (monitorAudioLevel now doc freq m))) = true.
Proof.
  intros H. destruct (ticking m) eqn:Ht.
  - rewrite (monitorAudioLevel_ticking _ _ _ _ Ht). cbn [fst].
    assert (Hs : silenceDuration (checkMuteState now doc m) = silenceDuration m)
      by apply (checkMuteState_frame now doc m).
    destruct (calculateAverageVolume freq
              <? volumeThreshold (checkMuteState now doc m)) eqn:E.
    + rewrite (decide_silent _ _ _ E). cbv zeta.
      destruct (_ && _ && _); cbn [fst]; cbn; rewrite Hs;
        apply add_tenth_nonneg, H.
    + rewrite (decide_speech _ _ _ E). cbv zeta.
      destruct (isMuted _); reflexivity.
  - unfold monitorAudioLevel, restartMonitoring. unfold ticking in Ht.
    destruct (isMonitoring m), (enabled m), (analyser m), (dataArray m);
      try discriminate Ht; exact H.
Qed.

Lemma run_nonneg (inputs : list TickInput) :
  forall m : AudioLevelMonitor,
  (0 <=? silenceDuration m) = true ->
  (0 <=? silenceDuration (fst (run inputs m))) = true.
Proof.
  induction inputs as [|i rest IH]; intros m H; [exact H|].
  cbn [run].
  pose proof (tick_nonneg (tickNow i) (tickDoc i) (tickFreq i) m H) as Hi.
  destruct (monitorAudioLevel _ _ _ m) as [m' effects]. cbn [fst] in Hi.
  destruct (existsb isScheduleTick effects); [|exact Hi].
  specialize (IH m' Hi). destruct (run rest m'). exact IH.
Qed.

(** C2. On every tick that runs, a sample strictly below the threshold
    adds 0.1 to the silence timer, and a sample at or above the threshold,
    one equal to it included, resets the timer to 0; along every sequence
    of ticks a timer that starts non-negative stays non-negative. *)
Theorem C2_silence_accumulator now doc freq (m : AudioLevelMonitor) :
  ticking m = true ->
  let sample := calculateAverageVolume freq in
  let elapsed := silenceDuration (fst (monitorAudioLevel now doc freq m)) in
  ((sample <? volumeThreshold m) = true ->
     elapsed = silenceDuration m + 0.1) /\
  ((volumeThreshold m <=? sample) = true -> elapsed = 0) /\
  ((sample =? volumeThreshold m) = true -> elapsed = 0) /\
  ((0 <=? silenceDuration m) = true ->
     (0 <=? elapsed) = true /\
     forall inputs, (0 <=? silenceDuration (fst (run inputs m))) = true).
Proof.
  intros Ht sample elapsed. subst elapsed.
  pose proof (tick_nonneg now doc freq m) as Htick.
  rewrite (monitorAudioLevel_ticking _ _ _ _ Ht) in *. cbn [fst] in *.
  destruct (checkMuteState_frame now doc m)
    as (_ & _ & _ & _ & Hthr & Hs & _).
  fold sample in Htick |- *.
  assert (Hspeech : (sample <? volumeThreshold m) = false ->
                    silenceDuration
                      (fst (decide now sample (checkMuteState now doc m))) = 0).
  { intros E. rewrite <- Hthr in E. rewrite (decide_speech _ _ _ E).
    cbv zeta. destruct (isMuted _); reflexivity. }
  split; [|split; [|split]].
  - intros E. rewrite <- Hthr in E. rewrite (decide_silent _ _ _ E).
    cbv zeta. destruct (_ && _ && _); cbn; rewrite Hs; reflexivity.
  - intros E. apply Hspeech, leb_true_ltb_false, E.
  - intros E. apply Hspeech, eqb_true_ltb_false, E.
  - intros Hnn. split; [exact (Htick Hnn)|].
    intros inputs. apply run_nonneg, Hnn.
Qed.

Lemma C2_silence_accumulator_witness :
  let m := set_silenceDuration (accumulate 7 0) (started 0.01 3) in
  silenceDuration (fst (monitorAudioLevel clock [micLive] silentBins m))
  = accumulate 8 0 /\
  silenceDuration (fst (monitorAudioLevel clock [micLive] loudBins m)) = 0 /\
  silenceDuration
    (fst (monitorAudioLevel clock [micLive] loudBins
            (set_silenceDuration (accumulate 7 0) (started 1 3)))) = 0 /\
  (0 <=? silenceDuration
           (fst (run (silentTicks 12 clock [micLive]) m))) = true.
Proof.
  intros m.
  destruct (C2_silence_accumulator clock [micLive] silentBins m eq_refl)
    as (Hadd & _ & _ & Hnn).
  destruct (C2_silence_accumulator clock [micLive] loudBins m eq_refl)
    as (_ & Hreset & _).
  destruct (C2_silence_accumulator clock [micLive] loudBins
              (set_silenceDuration (accumulate 7 0) (started 1 3)) eq_refl)
    as (_ & _ & Hequal & _).
  split; [apply Hadd; reflexivity|].
  split; [apply Hreset; reflexivity|].
  split; [apply Hequal; reflexivity|].
  apply Hnn. reflexivity.
Defined.

(** The silence timer first reaches 3 on the thirtieth silent tick. *)
Lemma not_due_before_30 (k : nat) :
  (k < 29)%nat -> (3 <=? accumulate (S k) 0) = false.
Proof.
  intros H.
  do 29 (destruct k as [|k]; [vm_compute; reflexivity|]).
  lia.
Qed.

Lemma due_at_30 : (3 <=? accumulate 30 0) = true.
Proof. vm_compute. reflexivity. Qed.

(** C6. With threshold 0.01, duration 3 s and cooldown 2 s, from the
    freshly started, unmuted monitor, thirty consecutive silent ticks
    outside any cooldown dispatch exactly one mute, on the thirtieth
    tick, and none on the twenty-nine ticks before it. *)
Theorem C6_scenario_thirty_silent_ticks (inputs : list TickInput) :
  List.length inputs = 30%nat ->
  forallb (fun i => quietTick 0.01 i
                    && negb (isInCooldown (tickNow i) (started 0.01 3)))
          inputs = true ->
  exists final,
    nth_error inputs 29 = Some final /\
    snd (run inputs (started 0.01 3)) =
      repeat [ScheduleTick 100] 29
      ++ [[SimulateMuteKey; SendMessage AUTO_MUTED (tickNow final);
           ScheduleTick 100]] /\
    map muteDispatches (snd (run inputs (started 0.01 3))) =
      repeat 0%nat 29 ++ [1%nat].
Proof.
  intros Hlen Hall.
  assert (Hne : inputs <> []) by (intros ->; discriminate).
  destruct (exists_last Hne) as (front & final & ->).
  rewrite length_app in Hlen. cbn in Hlen.
  assert (Hfront : List.length front = 29%nat) by lia.
  rewrite forallb_app in Hall. apply andb_prop in Hall as [Hfr Hfin].
  cbn [forallb] in Hfin. rewrite andb_true_r in Hfin.
  apply andb_prop in Hfin as [Hq Hc]. apply negb_true_iff in Hc.
  assert (Hrun := run_suppressed_then_mute front final (started 0.01 3)
                    eq_refl eq_refl eq_refl).
  rewrite Hfront in Hrun.
  rewrite Hrun.
  - exists final. split; [|split].
    + rewrite nth_error_app2 by lia. rewrite Hfront. reflexivity.
    + reflexivity.
    + cbn [snd]. rewrite map_app. reflexivity.
  - apply forallb_forall. intros i Hi.
    rewrite forallb_forall in Hfr. specialize (Hfr i Hi).
    apply andb_prop in Hfr as [Hfr _]. exact Hfr.
  - exact Hq.
  - intros k i Hk.
    assert (k < 29)%nat
      by (rewrite <- Hfront; apply nth_error_Some; congruence).
    change (silenceDuration (started 0.01 3)) with 0.
    change (maxSilenceDuration (started 0.01 3)) with 3.
    rewrite (not_due_before_30 k) by assumption. reflexivity.
  - exact due_at_30.
  - exact Hc.
Qed.

Lemma C6_scenario_thirty_silent_ticks_witness :
  exists final,
    nth_error (silentTicks 30 clock [micLive]) 29 = Some final /\
    snd (run (silentTicks 30 clock [micLive]) (started 0.01 3)) =
      repeat [ScheduleTick 100] 29
      ++ [[SimulateMuteKey; SendMessage AUTO_MUTED (tickNow final);
           ScheduleTick 100]] /\
    map muteDispatches
      (snd (run (silentTicks 30 clock [micLive]) (started 0.01 3))) =
      repeat 0%nat 29 ++ [1%nat].
Proof.
  apply (C6_scenario_thirty_silent_ticks (silentTicks 30 clock [micLive])).
  - reflexivity.
  - reflexivity.
Defined.

(** A stamp that keeps the window open still does after reconciliation,
    which can only move the stamp to the current time. *)
Lemma isInCooldown_checkMuteState now doc (m : AudioLevelMonitor) :
  is_finite now = true -> (0 <? unmuteCooldown m) = true ->
  isInCooldown now m = true ->
  isInCooldown now (checkMuteState now doc m) = true.
Proof.
  intros Hf Hc H. unfold isInCooldown in *.
  assert (Hcd : unmuteCooldown (checkMuteState now doc m) = unmuteCooldown m)
    by apply (checkMuteState_frame now doc m).
  rewrite Hcd.
  destruct (checkMuteState_stamp_cases now doc m) as [-> | ->].
  - exact H.
  - apply cooldown_at_stamp; assumption.
Qed.

(** No tick inside the cooldown window of the recorded unmute mutes. *)
Lemma tick_in_cooldown now doc freq (m : AudioLevelMonitor) :
  is_finite now = true -> (0 <? unmuteCooldown m) = true ->
  isInCooldown now m = true ->
  muteDispatches (snd (monitorAudioLevel now doc freq m)) = 0%nat.
Proof.
  intros Hf Hc H. destruct (ticking m) eqn:Ht.
  - rewrite (monitorAudioLevel_ticking _ _ _ _ Ht). cbn [snd].
    rewrite (proj1 (dispatches_schedule _)).
    apply decide_in_cooldown, isInCooldown_checkMuteState; assumption.
  - unfold monitorAudioLevel, restartMonitoring. unfold ticking in Ht.
    destruct (isMonitoring m), (enabled m), (analyser m), (dataArray m);
      try discriminate Ht; reflexivity.
Qed.

(** C4. On every tick inside the cooldown window of the recorded unmute
    no mute is dispatched, whatever the silence timer holds, and a silent
    tick still adds 0.1 to the timer; after a run of silent ticks inside
    the window the timer holds all of them, and the first silent tick
    outside the window on which the timer has reached the configured
    duration mutes, with no speech tick in between. *)
Theorem C4_cooldown_window :
  (forall now doc freq (m : AudioLevelMonitor),
     is_finite now = true -> (0 <? unmuteCooldown m) = true ->
     isInCooldown now m = true ->
     muteDispatches (snd (monitorAudioLevel now doc freq m)) = 0%nat /\
     (ticking m = true ->
      (calculateAverageVolume freq <? volumeThreshold m) = true ->
      silenceDuration (fst (monitorAudioLevel now doc freq m))
      = silenceDuration m + 0.1)) /\
  (forall inputs final (m : AudioLevelMonitor),
     ticking m = true -> isMuted m = false -> lastMuteState m = false ->
     forallb (fun i => quietTick (volumeThreshold m) i
                       && isInCooldown (tickNow i) m) inputs = true ->
     quietTick (volumeThreshold m) final = true ->
     isInCooldown (tickNow final) m = false ->
     (maxSilenceDuration m
        <=? accumulate (S (List.length inputs)) (silenceDuration m)) = true ->
     run inputs m =
       (set_silenceDuration
          (accumulate (List.length inputs) (silenceDuration m)) m,
        repeat [ScheduleTick 100] (List.length inputs)) /\
     snd (run (inputs ++ [final]) m) =
       repeat [ScheduleTick 100] (List.length inputs)
       ++ [[SimulateMuteKey; SendMessage AUTO_MUTED (tickNow final);
            ScheduleTick 100]]).
Proof.
  split.
  - intros now doc freq m Hf Hc H. split.
    + apply tick_in_cooldown; assumption.
    + intros Ht Hs.
      rewrite (monitorAudioLevel_ticking _ _ _ _ Ht). cbn [fst].
      destruct (checkMuteState_frame now doc m)
        as (_ & _ & _ & _ & Hthr & Hsd & _).
      rewrite <- Hthr in Hs. rewrite (decide_silent _ _ _ Hs). cbv zeta.
      rewrite (isInCooldown_checkMuteState now doc m Hf Hc H).
      cbn [negb]. rewrite andb_false_r. cbn. rewrite Hsd. reflexivity.
  - intros inputs final m Ht Him Hlm Hall Hfin Hout Hdue.
    rewrite forallb_forall in Hall.
    assert (Hq : forallb (quietTick (volumeThreshold m)) inputs = true).
    { apply forallb_forall. intros i Hi.
      destruct (andb_prop _ _ (Hall i Hi)) as [H _]. exact H. }
    assert (Hsup : forall k i, nth_error inputs k = Some i ->
              (maxSilenceDuration m <=? accumulate (S k) (silenceDuration m))
                && negb (isInCooldown (tickNow i) m) = false).
    { intros k i Hk. apply nth_error_In in Hk.
      destruct (andb_prop _ _ (Hall i Hk)) as [_ ->].
      apply andb_false_r. }
    split.
    + apply run_suppressed; assumption.
    + rewrite (run_suppressed_then_mute inputs final m); auto.
Qed.

Lemma C4_cooldown_window_witness :
  let m := set_lastUnmuteTime clock
             (set_silenceDuration (accumulate 35 0) (started 0.01 3)) in
  let final := mkTick (clock + 2000) [micLive] silentBins in
  muteDispatches
    (snd (monitorAudioLevel (clock + 1900) [micLive] silentBins m)) = 0%nat /\
  snd (run (silentTicks 5 (clock + 100) [micLive] ++ [final]) m) =
    repeat [ScheduleTick 100] 5
    ++ [[SimulateMuteKey; SendMessage AUTO_MUTED (clock + 2000);
         ScheduleTick 100]].
Proof.
  intros m final. split.
  - apply (proj1 C4_cooldown_window (clock + 1900) [micLive] silentBins m);
      reflexivity.
  - apply (proj2 C4_cooldown_window
             (silentTicks 5 (clock + 100) [micLive]) final m);
      reflexivity.
Defined.

(** C10. An automatic unmute stamps the last-unmute time with the time of
    the dispatch, and every tick inside the cooldown window that stamp
    opens dispatches no mute. *)
Theorem C10_auto_unmute_opens_cooldown now doc freq (m : AudioLevelMonitor) :
  unmuteDispatches (snd (monitorAudioLevel now doc freq m)) = 1%nat ->
  let m' := fst (monitorAudioLevel now doc freq m) in
  lastUnmuteTime m' = now /\
  snd (monitorAudioLevel now doc freq m) =
    [SimulateMuteKey; SendMessage AUTO_UNMUTED now; ScheduleTick 100] /\
  forall later doc' freq',
    is_finite later = true -> (0 <? unmuteCooldown m) = true ->
    ((later - now) / 1000 <? unmuteCooldown m) = true ->
    muteDispatches (snd (monitorAudioLevel later doc' freq' m')) = 0%nat.
Proof.
  intros H m'.
  assert (Hshape :
            m' = set_lastUnmuteTime now
                   (set_isMuted false
                      (set_silenceDuration 0 (checkMuteState now doc m)))
            /\ snd (monitorAudioLevel now doc freq m) =
               [SimulateMuteKey; SendMessage AUTO_UNMUTED now;
                ScheduleTick 100]).
  { subst m'. destruct (ticking m) eqn:Ht.
    - rewrite (monitorAudioLevel_ticking _ _ _ _ Ht) in *. cbn [fst snd] in *.
      rewrite (proj2 (dispatches_schedule _)) in H.
      destruct (calculateAverageVolume freq
                <? volumeThreshold (checkMuteState now doc m)) eqn:E.
      + rewrite (decide_silent _ _ _ E) in H. cbv zeta in H.
        destruct (_ && _ && _) in H; discriminate H.
      + rewrite (decide_speech _ _ _ E) in *. cbv zeta in *.
        destruct (isMuted (checkMuteState now doc m));
          [split; reflexivity | discriminate H].
    - exfalso. revert H.
      unfold monitorAudioLevel, restartMonitoring. unfold ticking in Ht.
      destruct (isMonitoring m), (enabled m), (analyser m), (dataArray m);
        try discriminate Ht; discriminate. }
  destruct Hshape as [Hm' Heff].
  assert (Hcd : unmuteCooldown m' = unmuteCooldown m).
  { rewrite Hm'. cbn. apply (checkMuteState_frame now doc m). }
  split; [rewrite Hm'; reflexivity | split; [exact Heff|]].
  intros later doc' freq' Hf Hc Hin.
  apply tick_in_cooldown; [exact Hf | rewrite Hcd; exact Hc |].
  unfold isInCooldown. rewrite Hcd, Hm'. exact Hin.
Qed.

Lemma C10_auto_unmute_opens_cooldown_witness :
  let m := set_lastMuteState true (set_isMuted true (started 0.01 3)) in
  let m' := fst (monitorAudioLevel clock [micMuted] loudBins m) in
  lastUnmuteTime m' = clock /\
  muteDispatches
    (snd (monitorAudioLevel (clock + 100) [micLive] silentBins m')) = 0%nat.
Proof.
  intros m m'.
  destruct (C10_auto_unmute_opens_cooldown clock [micMuted] loudBins m
              eq_refl) as (Hstamp & _ & Hquiet).
  split; [exact Hstamp|].
  apply (Hquiet (clock + 100) [micLive] silentBins); reflexivity.
Defined.

End DecisionEngine.

(** ** The reconciler, the dispatcher and the state reader *)

Section ReconcilerAndDispatcher.

Local Open Scope float_scope.

(** C5. When the control is read as unmuted while the previous
    observation, or the belief, was muted, reconciliation stamps the
    last-unmute time with the current time, so that the cooldown window is
    open at that instant; and whatever is read, the belief equals the
    observed state when reconciliation ends. *)
Theorem C5_manual_unmute_recorded now doc (m : AudioLevelMonitor)
  (observed : bool) :
  observes doc observed ->
  let m1 := checkMuteState now doc m in
  isMuted m1 = observed /\
  lastMuteState m1 = observed /\
  (observed = false -> lastMuteState m = true \/ isMuted m = true ->
   lastUnmuteTime m1 = now /\
   (is_finite now = true -> (0 <? unmuteCooldown m) = true ->
    isInCooldown now m1 = true)).
Proof.
  intros Hobs m1. subst m1.
  destruct (checkMuteState_sync now doc m observed Hobs) as [Him Hlm].
  split; [exact Him | split; [exact Hlm|]].
  intros -> Hflip.
  assert (Hstamp : lastUnmuteTime (checkMuteState now doc m) = now)
    by (apply checkMuteState_stamp; tauto).
  split; [exact Hstamp|].
  intros Hf Hc. unfold isInCooldown. rewrite Hstamp.
  assert (Hcd : unmuteCooldown (checkMuteState now doc m) = unmuteCooldown m)
    by apply (checkMuteState_frame now doc m).
  rewrite Hcd. apply cooldown_at_stamp; assumption.
Qed.

Lemma C5_manual_unmute_recorded_witness :
  let m := set_lastMuteState true (set_isMuted true (started 0.01 3)) in
  isMuted (checkMuteState clock [micLive] m) = false /\
  lastUnmuteTime (checkMuteState clock [micLive] m) = clock.
Proof.
  intros m.
  destruct (C5_manual_unmute_recorded clock [micLive] m false)
    as (Him & _ & Hstamp).
  - reflexivity.
  - split; [exact Him|]. apply Hstamp; [reflexivity | left; reflexivity].
Defined.

(** C7. A mute requested while the control is muted changes no field and
    has no effect, and so does an unmute requested while the control is
    unmuted: both dispatchers guard on the belief, which reconciliation
    has just set to the state read from the control. *)
Theorem C7_dispatch_idempotent now (m : AudioLevelMonitor) :
  (isMuted m = true -> autoMute now m = (m, [])) /\
  (isMuted m = false -> autoUnmute now m = (m, [])) /\
  (forall t doc, observes doc true ->
     autoMute now (checkMuteState t doc m) = (checkMuteState t doc m, [])) /\
  (forall t doc, observes doc false ->
     autoUnmute now (checkMuteState t doc m) = (checkMuteState t doc m, [])).
Proof.
  assert (Hmute : forall m0, isMuted m0 = true -> autoMute now m0 = (m0, []))
    by (intros m0 H; unfold autoMute; rewrite H; reflexivity).
  assert (Hunmute : forall m0, isMuted m0 = false ->
                               autoUnmute now m0 = (m0, []))
    by (intros m0 H; unfold autoUnmute; rewrite H; reflexivity).
  split; [apply Hmute | split; [apply Hunmute | split]];
    intros t doc Hobs;
    [apply Hmute | apply Hunmute];
    apply (checkMuteState_sync t doc m _ Hobs).
Qed.

Lemma C7_dispatch_idempotent_witness :
  autoMute clock (checkMuteState clock [micMuted] (started 0.01 3)) =
  (checkMuteState clock [micMuted] (started 0.01 3), []).
Proof.
  apply (C7_dispatch_idempotent clock (started 0.01 3)).
  reflexivity.
Defined.


(** The generic label phrases are probed in source order, "mute" before
    "unmute": the Japanese unmute phrase contains the Japanese mute phrase
    and is read as muted, the English one is read as not muted. *)
Lemma labelProbe_unmute_phrases :
  labelProbe "ミュート解除" = Some true /\ labelProbe "Unmute" = Some false.
Proof. split; reflexivity. Qed.

(** C8. The reader answers from the [data-is-muted] attribute whenever the
    control has it; without it, it answers from the Japanese or English
    phrases of the accessible label; and when no probe decides, or the
    read throws, it answers not muted, so an answer of muted always rests
    on a probe that matched. *)
Theorem C8_state_reader :
  (forall b v, getAttribute b "data-is-muted" = Some v ->
     isButtonMuted (Some b) = String.eqb v "true") /\
  (forall b, getAttribute b "data-is-muted" = None ->
     isButtonMuted (Some b) = fallbackAnswer b) /\
  (forall l, includes l "マイクをオフ" = true \/ includes l "Mic off" = true ->
     labelProbe l = Some false) /\
  (forall l, includes l "マイクをオフ" = false -> includes l "Mic off" = false ->
     includes l "マイクをオン" = true \/ includes l "Mic on" = true ->
     labelProbe l = Some true) /\
  (forall l, labelProbe l = None <->
     includes l "マイクをオフ" = false /\ includes l "Mic off" = false /\
     includes l "マイクをオン" = false /\ includes l "Mic on" = false /\
     includes l "ミュート" = false /\ includes l "Mute" = false /\
     includes l "ミュート解除" = false /\ includes l "Unmute" = false) /\
  (forall b, getAttribute b "data-is-muted" = None ->
     labelProbe (orEmpty (getAttribute b "aria-label")) = None ->
     classProbe (classList b) = false ->
     isButtonMuted (Some b) = false) /\
  (isButtonMuted_try None = Throws /\ isButtonMuted None = false) /\
  (forall button, isButtonMuted button = true ->
     exists b, button = Some b /\
       (getAttribute b "data-is-muted" = Some "true" \/
        getAttribute b "data-is-muted" = None /\
        (labelProbe (orEmpty (getAttribute b "aria-label")) = Some true \/
         labelProbe (orEmpty (getAttribute b "aria-label")) = None /\
         classProbe (classList b) = true))).
Proof.
  assert (Hattr : forall b v, getAttribute b "data-is-muted" = Some v ->
                    isButtonMuted (Some b) = String.eqb v "true").
  { intros b v H. unfold isButtonMuted, isButtonMuted_try, hasAttribute.
    rewrite H. reflexivity. }
  assert (Hfall : forall b, getAttribute b "data-is-muted" = None ->
                    isButtonMuted (Some b) = fallbackAnswer b).
  { intros b H.
    unfold isButtonMuted, isButtonMuted_try, hasAttribute, fallbackAnswer.
    rewrite H. cbv zeta.
    destruct (labelProbe _); [reflexivity|].
    destruct (classProbe _); reflexivity. }
  split; [exact Hattr | split; [exact Hfall|]].
  split; [|split; [|split; [|split; [|split; [split; reflexivity|]]]]].
  - intros l H. unfold labelProbe.
    destruct H as [-> | ->]; [|rewrite orb_true_r]; reflexivity.
  - intros l H1 H2 H. unfold labelProbe. rewrite H1, H2. cbn [orb].
    destruct H as [-> | ->]; [|rewrite orb_true_r]; reflexivity.
  - intros l. unfold labelProbe.
    destruct (includes l "マイクをオフ"), (includes l "Mic off"),
      (includes l "マイクをオン"), (includes l "Mic on"),
      (includes l "ミュート"), (includes l "Mute"),
      (includes l "ミュート解除"), (includes l "Unmute"); cbn;
      split; try discriminate; try tauto;
      intros (? & ? & ? & ? & ? & ? & ? & ?); discriminate.
  - intros b Ha Hl Hc. rewrite (Hfall b Ha). unfold fallbackAnswer.
    rewrite Hl. exact Hc.
  - intros [b|] H; [|discriminate H]. exists b. split; [reflexivity|].
    destruct (getAttribute b "data-is-muted") as [v|] eqn:Ha.
    + left. rewrite (Hattr b v Ha) in H.
      apply String.eqb_eq in H. subst v. reflexivity.
    + right. split; [reflexivity|].
      rewrite (Hfall b Ha) in H. unfold fallbackAnswer in H.
      destruct (labelProbe _) as [answer|].
      * left. rewrite H. reflexivity.
      * right. split; [reflexivity | exact H].
Qed.

Lemma C8_state_reader_witness :
  isButtonMuted (Some micMuted) = true /\
  isButtonMuted (Some (mkElement "button" [("aria-label", "Mic on")] []))
  = true /\
  isButtonMuted (Some (mkElement "button" [("aria-label", "Settings")] []))
  = false.
Proof.
  destruct C8_state_reader as (Hattr & Hfall & _ & _ & _ & Hnone & _).
  split; [|split].
  - apply (Hattr micMuted "true"). reflexivity.
  - rewrite Hfall; reflexivity.
  - apply Hnone; reflexivity.
Defined.

(** C9 as stated fails: on a page without the control, the thirtieth
    silent tick of a fresh monitor still dispatches a mute and flips the
    belief. *)
Lemma C9_counterexample :
  let m := fst (run (silentTicks 29 clock []) (started 0.01 3)) in
  let result := monitorAudioLevel (clock + 2900) [] silentBins m in
  findMuteButton [] = None /\
  muteDispatches (snd result) = 1%nat /\
  isMuted m = false /\ isMuted (fst result) = true.
Proof. vm_compute. repeat split. Qed.

(** C9, amended. When the control cannot be located, reconciliation is
    skipped, every field is left as it was, and the silence/speech
    decision of the tick runs on the unreconciled state. *)
Theorem C9_control_not_found now doc freq (m : AudioLevelMonitor) :
  findMuteButton doc = None ->
  checkMuteState now doc m = m /\
  (ticking m = true ->
   monitorAudioLevel now doc freq m =
   (fst (decide now (calculateAverageVolume freq) m),
    snd (decide now (calculateAverageVolume freq) m) ++ [ScheduleTick 100])).
Proof.
  intros H. split; [apply checkMuteState_not_found, H|].
  intros Ht. rewrite (monitorAudioLevel_ticking _ _ _ _ Ht).
  rewrite (checkMuteState_not_found now doc m H). reflexivity.
Qed.

Lemma C9_control_not_found_witness :
  checkMuteState clock [] (started 0.01 3) = started 0.01 3.
Proof.
  apply (C9_control_not_found clock [] silentBins (started 0.01 3)).
  reflexivity.
Defined.

End ReconcilerAndDispatcher.

(** ** The userscript variant: the same accumulator and the same guards *)

Section UserScriptFacts.

Local Open Scope float_scope.

Lemma userscript_autoMute_silence doc (m : UserScript.AudioLevelMonitor) :
  UserScript.silenceDuration (fst (UserScript.autoMute doc m))
  = UserScript.silenceDuration m.
Proof.
  unfold UserScript.autoMute.
  destruct (UserScript.firstMatch doc UserScript.muteButtons);
    [destruct (UserScript.isMuted m)|]; reflexivity.
Qed.

Lemma userscript_autoUnmute_silence doc (m : UserScript.AudioLevelMonitor) :
  UserScript.silenceDuration (fst (UserScript.autoUnmute doc m))
  = UserScript.silenceDuration m.
Proof.
  unfold UserScript.autoUnmute.
  destruct (UserScript.firstMatch doc UserScript.unmuteButtons);
    [destruct (UserScript.isMuted m)|]; reflexivity.
Qed.

(** The userscript's timer: 0.1 more on a silent tick, 0 on a speech
    tick. *)
Lemma userscript_accumulator doc freq (m : UserScript.AudioLevelMonitor) :
  UserScript.isMonitoring m = true ->
  let sample := calculateAverageVolume freq in
  let elapsed :=
    UserScript.silenceDuration
      (fst (UserScript.monitorAudioLevel doc freq m)) in
  ((sample <? UserScript.volumeThreshold m) = true ->
     elapsed = UserScript.silenceDuration m + 0.1) /\
  ((UserScript.volumeThreshold m <=? sample) = true -> elapsed = 0).
Proof.
  intros Hm sample elapsed. subst elapsed.
  unfold UserScript.monitorAudioLevel. rewrite Hm. cbn [negb].
  cbv zeta. fold sample.
  change (UserScript.volumeThreshold (UserScript.checkMuteState doc m))
    with (UserScript.volumeThreshold m).
  split; intros E.
  - rewrite E.
    destruct (_ && _).
    + destruct (UserScript.autoMute doc _) as [m2 effects] eqn:Ea.
      cbn [fst].
      change m2 with (fst (m2, effects)). rewrite <- Ea.
      rewrite userscript_autoMute_silence. reflexivity.
    + reflexivity.
  - rewrite (leb_true_ltb_false _ _ E).
    destruct (_ && _).
    + destruct (UserScript.autoUnmute doc _) as [m2 effects] eqn:Ea.
      cbn [fst].
      change m2 with (fst (m2, effects)). rewrite <- Ea.
      rewrite userscript_autoUnmute_silence. reflexivity.
    + reflexivity.
Qed.

(** The userscript's dispatchers do nothing when the belief already
    agrees with the request. *)
Lemma userscript_dispatch_idempotent doc (m : UserScript.AudioLevelMonitor) :
  (UserScript.isMuted m = true -> UserScript.autoMute doc m = (m, [])) /\
  (UserScript.isMuted m = false -> UserScript.autoUnmute doc m = (m, [])).
Proof.
  unfold UserScript.autoMute, UserScript.autoUnmute.
  split; intros ->;
    match goal with
    | |- context [UserScript.firstMatch ?d ?l] =>
        destruct (UserScript.firstMatch d l)
    end; reflexivity.
Qed.

End UserScriptFacts.

(** ** Locating the control *)

Section FindMuteButtonFacts.

Lemma findBySelectors_sound (doc : Document) (sels : list Selector) e :
  findBySelectors doc sels = Some e ->
  In e doc /\ isMicrophoneButton e = true.
Proof.
  induction sels as [|sel rest IH]; cbn [findBySelectors]; [discriminate|].
  destruct (querySelector doc sel) as [hit|] eqn:Hq; [|exact IH].
  destruct (isMicrophoneButton hit) eqn:Hmic; [|exact IH].
  intros H. injection H as <-. split; [|exact Hmic].
  apply (find_some _ _ Hq).
Qed.

Lemma findByFallback_sound (doc : Document) (sels : list Selector) e :
  findByFallback doc sels = Some e ->
  In e doc /\ isMicrophoneButton e = true.
Proof.
  induction sels as [|sel rest IH]; cbn [findByFallback]; [discriminate|].
  destruct (find isMicrophoneButton (querySelectorAll doc sel))
    as [hit|] eqn:Hf; [|exact IH].
  intros H. injection H as <-.
  destruct (find_some _ _ Hf) as [Hin Hmic]. split; [|exact Hmic].
  apply filter_In in Hin. apply Hin.
Qed.

(** X1. Whatever [findMuteButton] returns is an element of the page that
    passes the microphone test: its label contains one of the four
    microphone phrases. *)
Theorem X1_findMuteButton_sound (doc : Document) (e : Element) :
  findMuteButton doc = Some e ->
  In e doc /\ isMicrophoneButton e = true.
Proof.
  unfold findMuteButton.
  destruct (findBySelectors doc selectors) as [hit|] eqn:H1.
  - intros H. injection H as <-. apply (findBySelectors_sound _ _ _ H1).
  - apply findByFallback_sound.
Qed.

Lemma X1_findMuteButton_sound_witness :
  In micLive
     [mkElement "button"
        [("jsname", "psRWwc"); ("aria-label", "カメラをオフ");
         ("data-is-muted", "false")] [];
      micLive] /\
  isMicrophoneButton micLive = true.
Proof.
  apply (X1_findMuteButton_sound
           [mkElement "button"
              [("jsname", "psRWwc"); ("aria-label", "カメラをオフ");
               ("data-is-muted", "false")] [];
            micLive] micLive).
  reflexivity.
Defined.

(** A selector that fails in the first loop either has no hit or a hit
    that fails the microphone test. *)
Lemma findBySelectors_none (doc : Document) (sels : list Selector) :
  findBySelectors doc sels = None ->
  forall sel, In sel sels ->
  match querySelector doc sel with
  | Some hit => isMicrophoneButton hit = false
  | None => True
  end.
Proof.
  induction sels as [|s rest IH]; cbn [findBySelectors]; intros H sel Hin.
  - destruct Hin.
  - destruct (querySelector doc s) as [hit|] eqn:Hq.
    + destruct (isMicrophoneButton hit) eqn:Hmic; [discriminate H|].
      destruct Hin as [<- | Hin]; [rewrite Hq; exact Hmic | exact (IH H sel Hin)].
    + destruct Hin as [<- | Hin]; [rewrite Hq; exact I | exact (IH H sel Hin)].
Qed.

(** The label selector for a phrase matches exactly the buttons whose
    label contains the phrase. *)
Lemma matches_label_selector (phrase : string) (e : Element) :
  matchesSelector
    (mkSelector (Some "button") [AttrContains "aria-label" phrase]) e
  = String.eqb (localName e) "button"
    && includes (orEmpty (getAttribute e "aria-label")) phrase
    && match getAttribute e "aria-label" with Some _ => true | None => false end.
Proof.
  unfold matchesSelector. cbn.
  destruct (String.eqb (localName e) "button"); cbn; [|reflexivity].
  destruct (getAttribute e "aria-label"); cbn;
    [rewrite !andb_true_r; reflexivity | rewrite andb_false_r; reflexivity].
Qed.

Lemma isMicrophoneButton_has_label (e : Element) :
  isMicrophoneButton e = true ->
  exists label, getAttribute e "aria-label" = Some label.
Proof.
  unfold isMicrophoneButton.
  destruct (getAttribute e "aria-label") as [label|]; [eauto|].
  cbn. discriminate.
Qed.

Lemma label_hit_is_microphone (phrase : string) (doc : Document) :
  In phrase ["マイク"; "Mic"; "オフ"; "オン"] ->
  match querySelector doc
          (mkSelector (Some "button") [AttrContains "aria-label" phrase]) with
  | Some hit => isMicrophoneButton hit = true
  | None => True
  end.
Proof.
  intros Hp.
  destruct (querySelector doc _) as [hit|] eqn:Hq; [|exact I].
  apply find_some in Hq as [_ Hm]. rewrite matches_label_selector in Hm.
  apply andb_prop in Hm as [Hm _]. apply andb_prop in Hm as [_ Hinc].
  unfold isMicrophoneButton. cbv zeta.
  cbn in Hp.
  destruct Hp as [<- | [<- | [<- | [<- | []]]]]; rewrite Hinc;
    rewrite ?orb_true_r; reflexivity.
Qed.

(** X2. A page with a button whose label contains one of the microphone
    phrases, a bare "オフ" or "オン" included, always yields a control:
    [findMuteButton] returns [null] only when no button passes the
    microphone test. *)
Theorem X2_findMuteButton_complete (doc : Document) (e : Element) :
  In e doc ->
  localName e = "button" ->
  isMicrophoneButton e = true ->
  exists found, findMuteButton doc = Some found.
Proof.
  intros Hin Htag Hmic. unfold findMuteButton.
  destruct (findBySelectors doc selectors) as [hit|] eqn:H1; [eauto|].
  exfalso.
  destruct (isMicrophoneButton_has_label e Hmic) as [label Hlabel].
  assert (Hphrase : exists phrase,
             In phrase ["マイク"; "Mic"; "オフ"; "オン"] /\
             includes label phrase = true).
  { unfold isMicrophoneButton in Hmic. rewrite Hlabel in Hmic.
    cbn [orEmpty] in Hmic.
    apply orb_prop in Hmic as [Hmic | H4];
      [|exists "オン"; split; [cbn; tauto | exact H4]].
    apply orb_prop in Hmic as [Hmic | H3];
      [|exists "オフ"; split; [cbn; tauto | exact H3]].
    apply orb_prop in Hmic as [H1' | H2];
      [exists "マイク" | exists "Mic"]; (split; [cbn; tauto | assumption]). }
  destruct Hphrase as (phrase & Hp & Hinc).
  assert (Hsel : In (mkSelector (Some "button")
                       [AttrContains "aria-label" phrase]) selectors).
  { cbn in Hp. unfold selectors.
    destruct Hp as [<- | [<- | [<- | [<- | []]]]]; cbn; tauto. }
  pose proof (findBySelectors_none doc selectors H1 _ Hsel) as Hnone.
  pose proof (label_hit_is_microphone phrase doc Hp) as Hsome.
  destruct (querySelector doc _) as [hit|] eqn:Hq.
  - congruence.
  - unfold querySelector in Hq.
    pose proof (find_none _ _ Hq e Hin) as Hno.
    rewrite matches_label_selector, Htag, Hlabel in Hno.
    cbn in Hno. rewrite Hinc in Hno. discriminate Hno.
Qed.

Lemma X2_findMuteButton_complete_witness :
  exists found,
    findMuteButton
      [mkElement "div" [("aria-label", "マイク")] [];
       mkElement "button" [("aria-label", "カメラをオフ")] []]
    = Some found.
Proof.
  apply (X2_findMuteButton_complete _
           (mkElement "button" [("aria-label", "カメラをオフ")] []));
    [right; left; reflexivity | reflexivity | reflexivity].
Defined.

End FindMuteButtonFacts.

(** ** More about reconciliation and single ticks *)

Section ReconcileAndTickFacts.

Local Open Scope float_scope.

(** When reconciliation writes the last-unmute time, and what. *)
Lemma checkMuteState_stamp_exact now doc (m : AudioLevelMonitor) :
  lastUnmuteTime (checkMuteState now doc m) =
  if match observation doc with Some false => true | _ => false end
     && (isMuted m || lastMuteState m)
  then now else lastUnmuteTime m.
Proof.
  unfold observation, checkMuteState.
  destruct (findMuteButton doc) as [b|]; [|reflexivity].
  generalize (isButtonMuted (Some b)). intros o.
  destruct m as [a d mo en th sd ms im [om|] lu uc lm];
    destruct o, im, lm; reflexivity.
Qed.

(** X3. Reconciliation writes the last-unmute time exactly when the
    control is found reading unmuted while the belief or the previous
    observation was muted, and then writes the current time; a control
    found muted, or not found, never opens a cooldown. *)
Theorem X3_stamp_exactly_on_unmute_flip now doc (m : AudioLevelMonitor) :
  lastUnmuteTime (checkMuteState now doc m) =
  if match observation doc with Some false => true | _ => false end
     && (isMuted m || lastMuteState m)
  then now else lastUnmuteTime m.
Proof. exact (checkMuteState_stamp_exact now doc m). Qed.

(** X4. Reconciling twice against the same page is the same as
    reconciling once, whatever the clock reads the second time. *)
Theorem X4_checkMuteState_idempotent now later doc (m : AudioLevelMonitor) :
  checkMuteState later doc (checkMuteState now doc m)
  = checkMuteState now doc m.
Proof.
  unfold checkMuteState.
  destruct (findMuteButton doc) as [b|]; [|reflexivity].
  generalize (isButtonMuted (Some b)). intros o.
  destruct m as [a d mo en th sd ms im [om|] lu uc lm];
    destruct o, im, lm; reflexivity.
Qed.

(** The effects of a tick are one of five lists. *)
Lemma tick_effects_cases now doc freq (m : AudioLevelMonitor) :
  let effects := snd (monitorAudioLevel now doc freq m) in
  effects = [] \/ effects = [RestartMonitoring] \/
  effects = [ScheduleTick 100] \/
  effects = [SimulateMuteKey; SendMessage AUTO_MUTED now; ScheduleTick 100] \/
  effects = [SimulateMuteKey; SendMessage AUTO_UNMUTED now; ScheduleTick 100].
Proof.
  cbv zeta. destruct (ticking m) eqn:Ht.
  - rewrite (monitorAudioLevel_ticking _ _ _ _ Ht). cbn [snd].
    destruct (calculateAverageVolume freq
              <? volumeThreshold (checkMuteState now doc m)) eqn:E.
    + rewrite (decide_silent _ _ _ E). cbv zeta.
      destruct (_ && _ && _); cbn; tauto.
    + rewrite (decide_speech _ _ _ E). cbv zeta.
      destruct (isMuted _); cbn; tauto.
  - unfold monitorAudioLevel, restartMonitoring. unfold ticking in Ht.
    destruct (isMonitoring m), (enabled m), (analyser m), (dataArray m);
      try discriminate Ht; cbn; tauto.
Qed.


(** The fields a tick never writes. *)
Lemma tick_frame now doc freq (m : AudioLevelMonitor) :
  let m' := fst (monitorAudioLevel now doc freq m) in
  volumeThreshold m' = volumeThreshold m /\
  maxSilenceDuration m' = maxSilenceDuration m /\
  unmuteCooldown m' = unmuteCooldown m /\
  enabled m' = enabled m /\ dataArray m' = dataArray m.
Proof.
  cbv zeta. destruct (ticking m) eqn:Ht.
  - rewrite (monitorAudioLevel_ticking _ _ _ _ Ht). cbn [fst].
    destruct (checkMuteState_frame now doc m)
      as (_ & Hd & _ & He & Hthr & _ & Hmax & Hcd).
    destruct (calculateAverageVolume freq
              <? volumeThreshold (checkMuteState now doc m)) eqn:E.
    + rewrite (decide_silent _ _ _ E). cbv zeta.
      destruct (_ && _ && _); cbn; repeat split; assumption.
    + rewrite (decide_speech _ _ _ E). cbv zeta.
      destruct (isMuted _); cbn; repeat split; assumption.
  - unfold monitorAudioLevel, restartMonitoring. unfold ticking in Ht.
    destruct m as [a d mo en th sd ms im om lu uc lm]. cbn in *.
    destruct mo, en, a, d; try discriminate Ht; cbn; repeat split.
Qed.

(** A tick that dispatched a mute ran, and left the belief muted. *)
Lemma mute_dispatch_shape now doc freq (m : AudioLevelMonitor) :
  muteDispatches (snd (monitorAudioLevel now doc freq m)) = 1%nat ->
  ticking m = true /\
  isMuted (fst (monitorAudioLevel now doc freq m)) = true.
Proof.
  destruct (ticking m) eqn:Ht.
  - rewrite (monitorAudioLevel_ticking _ _ _ _ Ht). cbn [fst snd].
    rewrite (proj1 (dispatches_schedule _)).
    destruct (calculateAverageVolume freq
              <? volumeThreshold (checkMuteState now doc m)) eqn:E.
    + rewrite (decide_silent _ _ _ E). cbv zeta.
      destruct (_ && _ && _); cbn; [auto | discriminate].
    + rewrite (decide_speech _ _ _ E). cbv zeta.
      destruct (isMuted _); cbn; discriminate.
  - unfold monitorAudioLevel, restartMonitoring. unfold ticking in Ht.
    destruct (isMonitoring m), (enabled m), (analyser m), (dataArray m);
      try discriminate Ht; cbn; discriminate.
Qed.

(** A tick that dispatched an unmute ran on a speech sample with a muted
    reconciled belief. *)
Lemma unmute_dispatch_shape now doc freq (m : AudioLevelMonitor) :
  unmuteDispatches (snd (monitorAudioLevel now doc freq m)) = 1%nat ->
  ticking m = true /\
  isMuted (checkMuteState now doc m) = true /\
  fst (monitorAudioLevel now doc freq m) =
    set_lastUnmuteTime now
      (set_isMuted false (set_silenceDuration 0 (checkMuteState now doc m))).
Proof.
  destruct (ticking m) eqn:Ht.
  - rewrite (monitorAudioLevel_ticking _ _ _ _ Ht). cbn [fst snd].
    rewrite (proj2 (dispatches_schedule _)).
    destruct (calculateAverageVolume freq
              <? volumeThreshold (checkMuteState now doc m)) eqn:E.
    + rewrite (decide_silent _ _ _ E). cbv zeta.
      destruct (_ && _ && _); cbn; discriminate.
    + rewrite (decide_speech _ _ _ E). cbv zeta.
      destruct (isMuted _); cbn; [auto | discriminate].
  - unfold monitorAudioLevel, restartMonitoring. unfold ticking in Ht.
    destruct (isMonitoring m), (enabled m), (analyser m), (dataArray m);
      try discriminate Ht; cbn; discriminate.
Qed.

(** X5. The monitor's own unmute is recorded a second time as a manual
    one: after a tick that read the control as muted and dispatched an
    unmute, the first later reconciliation that reads the control as
    unmuted stamps the last-unmute time again, with its own time. *)
Theorem X5_own_unmute_restamped now doc freq later doc'
  (m : AudioLevelMonitor) :
  unmuteDispatches (snd (monitorAudioLevel now doc freq m)) = 1%nat ->
  observes doc true ->
  observes doc' false ->
  let m' := fst (monitorAudioLevel now doc freq m) in
  lastUnmuteTime m' = now /\
  lastUnmuteTime (checkMuteState later doc' m') = later.
Proof.
  intros Hd Hobs Hobs' m'. subst m'.
  destruct (unmute_dispatch_shape _ _ _ _ Hd) as (_ & _ & ->).
  split; [reflexivity|].
  rewrite checkMuteState_stamp_exact.
  unfold observes in Hobs'. rewrite Hobs'.
  cbn [lastMuteState set_lastUnmuteTime set_isMuted set_silenceDuration
       isMuted orb andb].
  rewrite (proj2 (checkMuteState_sync now doc m true Hobs)). reflexivity.
Qed.

Lemma X5_own_unmute_restamped_witness :
  let m := set_lastMuteState true (set_isMuted true (started 0.01 3)) in
  lastUnmuteTime
    (checkMuteState (clock + 100) [micLive]
       (fst (monitorAudioLevel clock [micMuted] loudBins m)))
  = clock + 100.
Proof.
  intros m.
  apply (X5_own_unmute_restamped clock [micMuted] loudBins (clock + 100)
           [micLive] m); reflexivity.
Defined.

Lemma decide_muted_no_mute now sample (m : AudioLevelMonitor) :
  isMuted m = true -> muteDispatches (snd (decide now sample m)) = 0%nat.
Proof.
  intros H. destruct (sample <? volumeThreshold m) eqn:E.
  - rewrite (decide_silent _ _ _ E). cbv zeta. rewrite H. cbn [negb].
    rewrite andb_false_r. reflexivity.
  - rewrite (decide_speech _ _ _ E). cbv zeta. rewrite H. reflexivity.
Qed.

(** A muted belief that reconciliation turns unmuted stamps the time. *)
Lemma checkMuteState_unmutes_stamps now doc (m : AudioLevelMonitor) :
  isMuted m = true -> isMuted (checkMuteState now doc m) = false ->
  lastUnmuteTime (checkMuteState now doc m) = now.
Proof.
  intros Hm Hm'. rewrite checkMuteState_stamp_exact, Hm. cbn [orb].
  destruct (observation doc) as [o|] eqn:Ho.
  - rewrite (proj1 (checkMuteState_sync now doc m o Ho)) in Hm'.
    subst o. reflexivity.
  - unfold observation in Ho.
    destruct (findMuteButton doc) eqn:Hf; [discriminate Ho|].
    rewrite (checkMuteState_not_found now doc m Hf) in Hm'. congruence.
Qed.

(** X7. A mute is never dispatched on two consecutive ticks: after a tick
    that muted, the next tick either still believes muted, or has just
    seen the control unmuted and is therefore inside the cooldown window
    it opened itself. *)
Theorem X7_no_consecutive_mutes now doc freq later doc' freq'
  (m : AudioLevelMonitor) :
  muteDispatches (snd (monitorAudioLevel now doc freq m)) = 1%nat ->
  is_finite later = true -> (0 <? unmuteCooldown m) = true ->
  muteDispatches
    (snd (monitorAudioLevel later doc' freq'
            (fst (monitorAudioLevel now doc freq m)))) = 0%nat.
Proof.
  intros Hd Hf Hc.
  destruct (mute_dispatch_shape _ _ _ _ Hd) as [_ Hm'].
  destruct (tick_frame now doc freq m) as (_ & _ & Hcd & _).
  set (m' := fst (monitorAudioLevel now doc freq m)) in *.
  destruct (ticking m') eqn:Ht.
  - rewrite (monitorAudioLevel_ticking _ _ _ _ Ht). cbn [snd].
    rewrite (proj1 (dispatches_schedule _)).
    destruct (isMuted (checkMuteState later doc' m')) eqn:Hm1.
    + apply decide_muted_no_mute, Hm1.
    + apply decide_in_cooldown. unfold isInCooldown.
      rewrite (checkMuteState_unmutes_stamps later doc' m' Hm' Hm1).
      assert (Hcd1 : unmuteCooldown (checkMuteState later doc' m')
                     = unmuteCooldown m')
        by apply (checkMuteState_frame later doc' m').
      rewrite Hcd1, Hcd. apply cooldown_at_stamp; assumption.
  - destruct (tick_effects_cases later doc' freq' m') as [H|[H|[H|[H|H]]]];
      cbv zeta in H; rewrite H; try reflexivity; exfalso;
      revert H; unfold monitorAudioLevel, restartMonitoring;
      unfold ticking in Ht;
      destruct (isMonitoring m'), (enabled m'), (analyser m'), (dataArray m');
      try discriminate Ht; cbn; discriminate.
Qed.

Lemma X7_no_consecutive_mutes_witness :
  let m := set_silenceDuration (accumulate 29 0) (started 0.01 3) in
  muteDispatches
    (snd (monitorAudioLevel (clock + 100) [micLive] silentBins
            (fst (monitorAudioLevel clock [micLive] silentBins m))))
  = 0%nat.
Proof.
  intros m.
  apply (X7_no_consecutive_mutes clock [micLive] silentBins (clock + 100)
           [micLive] silentBins m); reflexivity.
Defined.

(** X8. Nothing holds back a second unmute: when, on the tick after an
    automatic unmute, the control still reads muted and the sample is
    speech, the shortcut is synthesised again. *)
Theorem X8_unmute_repeats_while_page_lags now doc freq later doc' freq'
  (m : AudioLevelMonitor) :
  unmuteDispatches (snd (monitorAudioLevel now doc freq m)) = 1%nat ->
  observes doc' true ->
  (volumeThreshold m <=? calculateAverageVolume freq') = true ->
  snd (monitorAudioLevel later doc' freq'
         (fst (monitorAudioLevel now doc freq m)))
  = [SimulateMuteKey; SendMessage AUTO_UNMUTED later; ScheduleTick 100].
Proof.
  intros Hd Hobs Hs.
  destruct (unmute_dispatch_shape _ _ _ _ Hd) as (Ht & _ & Hm').
  destruct (tick_frame now doc freq m) as (Hthr & _).
  set (m' := fst (monitorAudioLevel now doc freq m)) in *.
  assert (Ht' : ticking m' = true).
  { rewrite Hm'. unfold ticking. cbn.
    rewrite <- (ticking_checkMuteState now doc m) in Ht. exact Ht. }
  rewrite (monitorAudioLevel_ticking _ _ _ _ Ht'). cbn [snd].
  assert (E : (calculateAverageVolume freq'
               <? volumeThreshold (checkMuteState later doc' m')) = false).
  { assert (H1 : volumeThreshold (checkMuteState later doc' m')
                 = volumeThreshold m')
      by apply (checkMuteState_frame later doc' m').
    rewrite H1, Hthr. apply leb_true_ltb_false, Hs. }
  rewrite (decide_speech _ _ _ E). cbv zeta.
  rewrite (proj1 (checkMuteState_sync later doc' m' true Hobs)).
  reflexivity.
Qed.

Lemma X8_unmute_repeats_while_page_lags_witness :
  let m := set_lastMuteState true (set_isMuted true (started 0.01 3)) in
  snd (monitorAudioLevel (clock + 100) [micMuted] loudBins
         (fst (monitorAudioLevel clock [micMuted] loudBins m)))
  = [SimulateMuteKey; SendMessage AUTO_UNMUTED (clock + 100);
     ScheduleTick 100].
Proof.
  intros m.
  apply (X8_unmute_repeats_while_page_lags clock [micMuted] loudBins
           (clock + 100) [micMuted] loudBins m); reflexivity.
Defined.

(** What one tick can do to the silence timer, and when it mutes. *)
Lemma tick_silence_cases now doc freq (m : AudioLevelMonitor) :
  let m' := fst (monitorAudioLevel now doc freq m) in
  let effects := snd (monitorAudioLevel now doc freq m) in
  (silenceDuration m' = silenceDuration m /\ muteDispatches effects = 0%nat)
  \/ (silenceDuration m' = 0 /\ muteDispatches effects = 0%nat)
  \/ (silenceDuration m' = silenceDuration m + 0.1 /\
      (muteDispatches effects = 0%nat \/
       (maxSilenceDuration m <=? silenceDuration m + 0.1) = true)).
Proof.
  cbv zeta. destruct (ticking m) eqn:Ht.
  - rewrite (monitorAudioLevel_ticking _ _ _ _ Ht). cbn [fst snd].
    rewrite (proj1 (dispatches_schedule _)).
    destruct (checkMuteState_frame now doc m)
      as (_ & _ & _ & _ & _ & Hs & Hmax & _).
    destruct (calculateAverageVolume freq
              <? volumeThreshold (checkMuteState now doc m)) eqn:E.
    + rewrite (decide_silent _ _ _ E). cbv zeta. rewrite Hmax, Hs.
      right. right.
      destruct (maxSilenceDuration m <=? silenceDuration m + 0.1);
        [|cbn; auto].
      destruct (_ && _); cbn; auto.
    + rewrite (decide_speech _ _ _ E). cbv zeta.
      right. left. destruct (isMuted _); cbn; auto.
  - left. unfold monitorAudioLevel, restartMonitoring. unfold ticking in Ht.
    destruct m as [a d mo en th sd ms im om lu uc lm]. cbn in *.
    destruct mo, en, a, d; try discriminate Ht; cbn; auto.
Qed.

(** Debouncing, for a timer that holds [j] steps counted from zero. *)
Lemma run_never_mutes_early (inputs : list TickInput) :
  forall (m : AudioLevelMonitor) (j : nat),
  silenceDuration m = accumulate j 0 ->
  (forall k, (k <= j + List.length inputs)%nat ->
     (maxSilenceDuration m <=? accumulate k 0) = false) ->
  Forall (fun effects => muteDispatches effects = 0%nat)
         (snd (run inputs m)).
Proof.
  induction inputs as [|i rest IH]; intros m j Hj Hnot; [constructor|].
  cbn [run].
  pose proof (tick_silence_cases (tickNow i) (tickDoc i) (tickFreq i) m)
    as Hcases.
  pose proof (tick_frame (tickNow i) (tickDoc i) (tickFreq i) m)
    as (_ & Hmax & _).
  destruct (monitorAudioLevel _ _ _ m) as [m' effects].
  cbn [fst snd] in Hcases, Hmax. cbn [List.length] in Hnot.
  assert (Hquiet : muteDispatches effects = 0%nat).
  { destruct Hcases as [[_ H]|[[_ H]|[_ [H|H]]]]; try exact H.
    rewrite Hj, <- accumulate_succ, (Hnot (S j)) in H by lia.
    discriminate H. }
  assert (Hrest : exists j', silenceDuration m' = accumulate j' 0 /\
                             (j' <= S j)%nat).
  { destruct Hcases as [[H _]|[[H _]|[H _]]].
    - exists j. split; [congruence | lia].
    - exists 0%nat. split; [exact H | lia].
    - exists (S j). split; [rewrite accumulate_succ; congruence | lia]. }
  destruct Hrest as (j' & Hj' & Hle).
  destruct (existsb isScheduleTick effects).
  - specialize (IH m' j' Hj').
    destruct (run rest m') as [m'' trace]. cbn [snd] in *.
    constructor; [exact Hquiet|]. apply IH.
    intros k Hk. rewrite Hmax. apply Hnot. lia.
  - cbn [snd]. constructor; [exact Hquiet | constructor].
Qed.

(** X9. Debouncing: from a timer at zero, whatever the samples, the pages
    and the clock do, no tick mutes as long as the timer, counted up from
    zero in steps of 0.1, could not yet have reached the configured
    duration. *)
Theorem X9_never_mutes_early (inputs : list TickInput)
  (m : AudioLevelMonitor) :
  silenceDuration m = 0 ->
  (forall k, (k <= List.length inputs)%nat ->
     (maxSilenceDuration m <=? accumulate k 0) = false) ->
  Forall (fun effects => muteDispatches effects = 0%nat)
         (snd (run inputs m)).
Proof.
  intros H0 Hnot. apply (run_never_mutes_early inputs m 0%nat H0 Hnot).
Qed.

Lemma X9_never_mutes_early_witness :
  Forall (fun effects => muteDispatches effects = 0%nat)
    (snd (run (silentTicks 12 clock []
               ++ [mkTick (clock + 1200) [micMuted] loudBins]
               ++ silentTicks 16 (clock + 1300) [micLive])
            (started 0.01 3))).
Proof.
  apply X9_never_mutes_early; [reflexivity|].
  intros k Hk. cbn in Hk.
  do 30 (destruct k as [|k]; [vm_compute; reflexivity|]). lia.
Defined.

Lemma ltb_nan_l (x : float) : (nan <? x) = false.
Proof. rewrite FloatAxioms.ltb_spec. reflexivity. Qed.

(** X10. A snapshot without bins averages to NaN, which no threshold
    exceeds: the tick takes the speech branch, resets the silence timer
    and cannot mute. *)
Theorem X10_empty_snapshot_is_speech now doc (m : AudioLevelMonitor) :
  ticking m = true ->
  silenceDuration (fst (monitorAudioLevel now doc [] m)) = 0 /\
  muteDispatches (snd (monitorAudioLevel now doc [] m)) = 0%nat /\
  (isMuted (checkMuteState now doc m) = true ->
   unmuteDispatches (snd (monitorAudioLevel now doc [] m)) = 1%nat).
Proof.
  intros Ht. rewrite (monitorAudioLevel_ticking _ _ _ _ Ht). cbn [fst snd].
  rewrite (proj1 (dispatches_schedule _)), (proj2 (dispatches_schedule _)).
  change (calculateAverageVolume []) with nan.
  rewrite (decide_speech _ _ _ (ltb_nan_l _)). cbv zeta.
  destruct (isMuted (checkMuteState now doc m)); cbn; auto.
  repeat split. discriminate.
Qed.

Lemma X10_empty_snapshot_is_speech_witness :
  silenceDuration
    (fst (monitorAudioLevel clock [micLive] []
            (set_silenceDuration (accumulate 29 0) (started 0.01 3)))) = 0.
Proof.
  apply (X10_empty_snapshot_is_speech clock [micLive]
           (set_silenceDuration (accumulate 29 0) (started 0.01 3))).
  reflexivity.
Defined.

End ReconcileAndTickFacts.

(** ** The lifecycle *)

Section LifecycleFacts.

Local Open Scope float_scope.

Variables (parseFloat parseInt : JsValue -> float).

(** X11. After [stopMonitoring] no tick does anything: whatever is fed to
    the loop, the first tick returns at once, nothing is dispatched and
    the timer is not re-armed; the belief, the silence timer and the
    last-unmute time are left as they were. *)
Theorem X11_stopped_monitor_is_inert (inputs : list TickInput)
  (m : AudioLevelMonitor) :
  run inputs (stopMonitoring m) =
    (stopMonitoring m, match inputs with [] => [] | _ => [[]] end) /\
  isMuted (stopMonitoring m) = isMuted m /\
  silenceDuration (stopMonitoring m) = silenceDuration m /\
  lastUnmuteTime (stopMonitoring m) = lastUnmuteTime m.
Proof.
  split; [|repeat split].
  destruct inputs as [|i rest]; reflexivity.
Qed.

(** X12. A tick that finds the analyser or the data array missing
    dispatches nothing and does not re-arm the timer: it stops monitoring
    and asks for a restart, and the loop ends there. *)
Theorem X12_missing_analyser_restarts (i : TickInput)
  (rest : list TickInput) (m : AudioLevelMonitor) :
  isMonitoring m = true -> Monitor.enabled m = true ->
  analyser m && dataArray m = false ->
  run (i :: rest) m = (stopMonitoring m, [[RestartMonitoring]]).
Proof.
  intros Hm He Ha. cbn [run]. unfold monitorAudioLevel.
  rewrite Hm, He. cbn [negb orb].
  destruct (analyser m), (dataArray m); try discriminate Ha; reflexivity.
Qed.

Lemma X12_missing_analyser_restarts_witness :
  run (silentTicks 3 clock [micLive])
      (set_analyser false (started 0.01 3))
  = (stopMonitoring (started 0.01 3), [[RestartMonitoring]]).
Proof.
  apply (X12_missing_analyser_restarts
           (mkTick clock [micLive] silentBins)
           (silentTicks 2 (clock + 100) [micLive])
           (set_analyser false (started 0.01 3)));
    reflexivity.
Defined.

(** The settings listener writes three fields and nothing else. *)
Lemma onStorageChanged_frame namespace changes (m : AudioLevelMonitor) :
  let m' := onStorageChanged parseFloat parseInt namespace changes m in
  isMonitoring m' = isMonitoring m /\ analyser m' = analyser m /\
  dataArray m' = dataArray m /\ isMuted m' = isMuted m /\
  silenceDuration m' = silenceDuration m /\
  lastUnmuteTime m' = lastUnmuteTime m /\
  lastMuteState m' = lastMuteState m /\
  unmuteCooldown m' = unmuteCooldown m.
Proof.
  cbv zeta. unfold onStorageChanged.
  destruct (String.eqb namespace "sync"); [|repeat split].
  destruct (chVolumeThreshold changes), (chSilenceDuration changes),
    (chEnabled changes); repeat split.
Qed.

Lemma step_stalled (e : Event) (p : Page) :
  stalled p ->
  snd (step parseFloat parseInt e p) = [] /\
  stalled (fst (step parseFloat parseInt e p)).
Proof.
  intros (Harm & Hm & Ha). unfold stalled.
  assert (Hens : ensureMonitoring (monitor p) = (monitor p, [])).
  { unfold ensureMonitoring. rewrite Hm, Ha.
    destruct (Monitor.enabled (monitor p)); reflexivity. }
  destruct e as [i | namespace changes | hidden | ]; cbn [step].
  - rewrite Harm. cbn. auto.
  - destruct (onStorageChanged_frame namespace changes (monitor p))
      as (Hm' & Ha' & _).
    cbn. rewrite Hm', Ha'. auto.
  - unfold onVisibilityChange.
    destruct (negb hidden && Monitor.enabled (monitor p));
      [rewrite Hens|]; cbn; auto.
  - rewrite Hens. cbn. auto.
Qed.

Lemma steps_stalled (events : list Event) :
  forall p, stalled p ->
  Forall (fun effects => effects = [])
         (snd (steps parseFloat parseInt events p)) /\
  stalled (fst (steps parseFloat parseInt events p)).
Proof.
  induction events as [|e rest IH]; intros p Hp; [split; [constructor|exact Hp]|].
  cbn [steps].
  destruct (step_stalled e p Hp) as [He Hp'].
  destruct (step parseFloat parseInt e p) as [p' effects].
  cbn [fst snd] in He, Hp'.
  destruct (IH p' Hp') as [Htrace Hfinal].
  destruct (steps parseFloat parseInt rest p') as [p'' trace].
  cbn [fst snd] in *. split; [constructor; assumption | exact Hfinal].
Qed.

(** X13. Switching the extension off and on again leaves the monitor
    dead: once a tick has found [enabled] false, the timer is not
    re-armed, and no later settings change, visibility change or
    [ensureMonitoring] call has any effect, because the monitor still
    counts as monitoring. *)
Theorem X13_disable_then_enable_stalls (i : TickInput)
  (events : list Event) (p : Page) :
  isMonitoring (monitor p) = true -> analyser (monitor p) = true ->
  Monitor.enabled (monitor p) = false ->
  Forall (fun effects => effects = [])
         (snd (steps parseFloat parseInt (TimerFires i :: events) p)) /\
  timerArmed (fst (steps parseFloat parseInt (TimerFires i :: events) p))
  = false.
Proof.
  intros Hm Ha He.
  assert (Hfirst : snd (step parseFloat parseInt (TimerFires i) p) = [] /\
                   stalled (fst (step parseFloat parseInt (TimerFires i) p))).
  { cbn [step]. unfold stalled.
    destruct (timerArmed p) eqn:Harm.
    - unfold monitorAudioLevel. rewrite Hm, He. cbn. auto.
    - cbn. auto. }
  destruct Hfirst as [Heff Hst]. cbn [steps].
  destruct (step parseFloat parseInt (TimerFires i) p) as [p' effects].
  cbn [fst snd] in Heff, Hst.
  destruct (steps_stalled events p' Hst) as [Htrace (Harm & _)].
  destruct (steps parseFloat parseInt events p') as [p'' trace].
  cbn [fst snd] in *. split; [constructor; assumption | exact Harm].
Qed.

End LifecycleFacts.

Lemma X13_disable_then_enable_stalls_witness :
  let number := fun v => match v with JsNumber x => x | _ => nan end in
  let off := mkChanges None None (Some (JsBoolean false)) in
  let on := mkChanges None None (Some (JsBoolean true)) in
  let events :=
    [StorageChanged "sync" on; VisibilityChanged false; EnsureMonitoringDue;
     TimerFires (mkTick (Examples.clock + 200) [micLive] loudBins)] in
  let p := mkPage (onStorageChanged number number "sync" off
                     (set_lastMuteState true
                        (set_isMuted true (started 0.01 3)))) true in
  Forall (fun effects => effects = [])
    (snd (steps number number
            (TimerFires (mkTick Examples.clock [micMuted] loudBins) :: events)
            p)) /\
  ticking
    (monitor
       (fst (steps number number
               (TimerFires (mkTick Examples.clock [micMuted] loudBins)
                :: events) p))) = true.
Proof.
  intros number off on events p. split.
  - apply (X13_disable_then_enable_stalls number number
             (mkTick Examples.clock [micMuted] loudBins) events p);
      reflexivity.
  - reflexivity.
Defined.

(** ** Settings, the debug console and the loudness sample *)

Section SettingsFacts.

Local Open Scope float_scope.

Variables (parseFloat parseInt : JsValue -> float).






End SettingsFacts.


Section DebugConsoleFacts.

Local Open Scope float_scope.

(** X15. [toggleMute] always acts: it synthesises the shortcut exactly
    once and inverts the belief, so toggling twice restores the belief;
    only the path through [autoUnmute] stamps the last-unmute time. *)
Theorem X15_toggleMute_flips now later (m : AudioLevelMonitor) :
  keyPresses (snd (toggleMute now m)) = 1%nat /\
  isMuted (fst (toggleMute now m)) = negb (isMuted m) /\
  isMuted (fst (toggleMute later (fst (toggleMute now m)))) = isMuted m /\
  lastUnmuteTime (fst (toggleMute now m)) =
    (if isMuted m then now else lastUnmuteTime m).
Proof.
  unfold toggleMute, autoMute, autoUnmute.
  destruct m as [a d mo en th sd ms im om lu uc lm]. cbn.
  destruct im; cbn; repeat split.
Qed.

End DebugConsoleFacts.

(** ** The loudness sample *)

Section SampleFacts.

Local Open Scope float_scope.

Lemma binary_round_aux_signOk (mx ex : Z) (lx : location) :
  signOk (binary_round_aux prec emax false mx ex lx).
Proof.
  unfold binary_round_aux.
  destruct (shr_fexp prec emax mx ex lx) as [mrs' e'].
  destruct (shr_fexp prec emax _ e' loc_Exact) as [mrs'' e''].
  destruct (shr_m mrs''); cbn; auto.
  destruct (_ <=? _)%Z; cbn; auto.
Qed.

Lemma binary_normalize_signOk (m e : Z) :
  (0 <= m)%Z -> signOk (binary_normalize prec emax m e false).
Proof.
  intros H. unfold binary_normalize. destruct m as [|p|p]; [reflexivity| |lia].
  unfold binary_round. destruct (shl_align _ _ _).
  apply binary_round_aux_signOk.
Qed.

Lemma of_uint63_signOk (n : int) : signOk (Prim2SF (of_uint63 n)).
Proof.
  rewrite FloatAxioms.of_uint63_spec. apply binary_normalize_signOk.
  apply Uint63.to_Z_bounded.
Qed.

Lemma add_signOk (x y : float) :
  signOk (Prim2SF x) -> signOk (Prim2SF y) -> signOk (Prim2SF (x + y)).
Proof.
  rewrite FloatAxioms.add_spec. unfold SF64add, SFadd.
  destruct (Prim2SF x) as [sx|sx| |sx mx ex], (Prim2SF y) as [sy|sy| |sy my ey];
    cbn [signOk]; intros Hx Hy; subst; cbn [signOk]; auto.
  cbn [cond_Zopp]. apply binary_normalize_signOk. lia.
Qed.

Lemma div_signOk (x y : float) :
  signOk (Prim2SF x) -> signOk (Prim2SF y) -> signOk (Prim2SF (x / y)).
Proof.
  rewrite FloatAxioms.div_spec. unfold SF64div, SFdiv.
  destruct (Prim2SF x) as [sx|sx| |sx mx ex], (Prim2SF y) as [sy|sy| |sy my ey];
    cbn [signOk]; intros Hx Hy; subst; cbn [signOk xorb]; auto.
  destruct (SFdiv_core_binary _ _ _ _ _ _) as [[mz ez] lz].
  apply binary_round_aux_signOk.
Qed.

Lemma signOk_not_negative (x : float) :
  signOk (Prim2SF x) -> (x <? 0) = false.
Proof.
  rewrite FloatAxioms.ltb_spec. change (Prim2SF 0) with (S754_zero false).
  destruct (Prim2SF x) as [sx|sx| |sx mx ex]; cbn [signOk]; intros H; subst;
    reflexivity.
Qed.

Lemma sum_signOk (data : list Byte.byte) :
  forall sum, signOk (Prim2SF sum) ->
  signOk (Prim2SF (fold_left (fun sum b => sum + byteToNumber b) data sum)).
Proof.
  induction data as [|b rest IH]; intros sum H; [exact H|].
  cbn [fold_left]. apply IH, add_signOk; [exact H|].
  apply of_uint63_signOk.
Qed.

Lemma calculateAverageVolume_signOk (data : list Byte.byte) :
  signOk (Prim2SF (calculateAverageVolume data)).
Proof.
  unfold calculateAverageVolume. cbv zeta.
  apply div_signOk; [apply div_signOk|reflexivity].
  - apply sum_signOk. reflexivity.
  - apply of_uint63_signOk.
Qed.

(** X16. The loudness sample is never negative, whatever the snapshot
    holds (it is NaN for a snapshot without bins); hence with the
    threshold set to 0, which only the debug console can do, no tick is
    silent: the silence timer stays at 0 and nothing is ever muted. *)
Theorem X16_sample_never_negative :
  (forall data, (calculateAverageVolume data <? 0) = false) /\
  (forall now doc freq (m : AudioLevelMonitor),
     ticking m = true ->
     let result :=
       monitorAudioLevel now doc freq (adjustVolumeThreshold 0 m) in
     silenceDuration (fst result) = 0 /\
     muteDispatches (snd result) = 0%nat).
Proof.
  assert (Hneg : forall data, (calculateAverageVolume data <? 0) = false)
    by (intros data; apply signOk_not_negative,
          calculateAverageVolume_signOk).
  split; [exact Hneg|].
  intros now doc freq m Ht result. subst result.
  assert (Ht' : ticking (adjustVolumeThreshold 0 m) = true) by exact Ht.
  rewrite (monitorAudioLevel_ticking _ _ _ _ Ht'). cbn [fst snd].
  rewrite (proj1 (dispatches_schedule _)).
  assert (E : (calculateAverageVolume freq
               <? volumeThreshold
                    (checkMuteState now doc (adjustVolumeThreshold 0 m)))
              = false).
  { assert (H : volumeThreshold
                  (checkMuteState now doc (adjustVolumeThreshold 0 m)) = 0)
      by apply (checkMuteState_frame now doc (adjustVolumeThreshold 0 m)).
    rewrite H. apply Hneg. }
  rewrite (decide_speech _ _ _ E). cbv zeta.
  destruct (isMuted _); split; reflexivity.
Qed.

Lemma X16_sample_never_negative_witness :
  muteDispatches
    (snd (monitorAudioLevel clock [micLive] silentBins
            (adjustVolumeThreshold 0
               (set_silenceDuration (accumulate 29 0) (started 0.01 3)))))
  = 0%nat.
Proof.
  apply (proj2 X16_sample_never_negative clock [micLive] silentBins
           (set_silenceDuration (accumulate 29 0) (started 0.01 3))).
  reflexivity.
Defined.

End SampleFacts.

(** ** The background script's statistics and notifications *)

Section BackgroundFacts.

Local Open Scope float_scope.

Import Background.

Lemma handleMessage_cases nowIso message (s : Stats) :
  let type := msgType message in
  handleMessage nowIso message s =
  if String.eqb type "AUTO_MUTED" then handleAutoMuted nowIso s
  else if String.eqb type "AUTO_UNMUTED" then handleAutoUnmuted nowIso s
  else if String.eqb type "RESET_STATS"
  then (noStats, [SendResponse SuccessResponse])
  else (s, if String.eqb type "GET_STATS"
           then [SendResponse (StatsResponse s)] else []).
Proof.
  cbv zeta. unfold handleMessage.
  destruct (String.eqb (msgType message) "AUTO_MUTED"); [reflexivity|].
  destruct (String.eqb (msgType message) "AUTO_UNMUTED"); [reflexivity|].
  destruct (String.eqb (msgType message) "GET_STATS") eqn:Hg;
    [|destruct (String.eqb (msgType message) "RESET_STATS"); reflexivity].
  apply String.eqb_eq in Hg. rewrite Hg. reflexivity.
Qed.

(** The counters between resets. *)
Lemma counters_count_messages (messages : list (string * Message)) :
  forall s : Stats,
  countType "RESET_STATS" messages = 0%nat ->
  autoMuteCount (fst (handleAll messages s)) =
    increments (countType "AUTO_MUTED" messages) (autoMuteCount s) /\
  autoUnmuteCount (fst (handleAll messages s)) =
    increments (countType "AUTO_UNMUTED" messages) (autoUnmuteCount s).
Proof.
  unfold countType.
  induction messages as [|[nowIso message] rest IH]; intros s Hreset;
    [split; reflexivity|].
  cbn [handleAll filter snd] in *.
  rewrite handleMessage_cases. cbv zeta.
  destruct (String.eqb (msgType message) "AUTO_MUTED") eqn:Hm.
  - apply String.eqb_eq in Hm. rewrite Hm in *. cbn in Hreset |- *.
    specialize (IH (mkStats (autoMuteCount s + 1) (autoUnmuteCount s)
                      (Some nowIso)) Hreset).
    destruct (handleAll rest _). exact IH.
  - destruct (String.eqb (msgType message) "AUTO_UNMUTED") eqn:Hu.
    + apply String.eqb_eq in Hu. rewrite Hu in *. cbn in Hreset |- *.
      specialize (IH (mkStats (autoMuteCount s) (autoUnmuteCount s + 1)
                        (Some nowIso)) Hreset).
      destruct (handleAll rest _). exact IH.
    + destruct (String.eqb (msgType message) "RESET_STATS") eqn:Hr;
        [discriminate Hreset|].
      specialize (IH s Hreset). destruct (handleAll rest s). exact IH.
Qed.

(** X17. Between resets the two counters count messages: after any
    messages without a [RESET_STATS], the mute counter has been
    incremented once per [AUTO_MUTED] message and the unmute counter once
    per [AUTO_UNMUTED] message; [GET_STATS] and messages of any other type
    change neither. *)
Theorem X17_counters_count_messages (messages : list (string * Message)) :
  forall s : Stats,
  countType "RESET_STATS" messages = 0%nat ->
  autoMuteCount (fst (handleAll messages s)) =
    increments (countType "AUTO_MUTED" messages) (autoMuteCount s) /\
  autoUnmuteCount (fst (handleAll messages s)) =
    increments (countType "AUTO_UNMUTED" messages) (autoUnmuteCount s).
Proof. exact (counters_count_messages messages). Qed.

Lemma X17_counters_count_messages_witness :
  autoMuteCount
    (fst (handleAll
            [("t1", mkMessage "AUTO_MUTED" (Some 1));
             ("t2", mkMessage "GET_STATS" None);
             ("t3", mkMessage "PING" None);
             ("t4", mkMessage "AUTO_UNMUTED" (Some 2));
             ("t5", mkMessage "AUTO_MUTED" (Some 3))] noStats)) = 2.
Proof.
  apply (X17_counters_count_messages
           [("t1", mkMessage "AUTO_MUTED" (Some 1));
            ("t2", mkMessage "GET_STATS" None);
            ("t3", mkMessage "PING" None);
            ("t4", mkMessage "AUTO_UNMUTED" (Some 2));
            ("t5", mkMessage "AUTO_MUTED" (Some 3))] noStats).
  reflexivity.
Defined.

Lemma handleAll_app (before after : list (string * Message)) :
  forall s : Stats,
  fst (handleAll (before ++ after) s)
  = fst (handleAll after (fst (handleAll before s))).
Proof.
  induction before as [|[nowIso message] rest IH]; intros s; [reflexivity|].
  cbn [app handleAll].
  destruct (handleMessage nowIso message s) as [s' actions].
  specialize (IH s'). destruct (handleAll (rest ++ after) s').
  destruct (handleAll rest s'). exact IH.
Qed.

(** X18. A [RESET_STATS] message forgets everything before it: the
    statistics after any history, a reset, and further messages are those
    the further messages alone produce from the empty statistics, and the
    reset itself is answered with success. *)
Theorem X18_reset_forgets_history
  (before after : list (string * Message)) nowIso (reset : Message)
  (s : Stats) :
  msgType reset = "RESET_STATS" ->
  fst (handleAll (before ++ (nowIso, reset) :: after) s)
  = fst (handleAll after noStats) /\
  forall s', handleMessage nowIso reset s'
             = (noStats, [SendResponse SuccessResponse]).
Proof.
  intros Hr.
  assert (Hone : forall s', handleMessage nowIso reset s'
                            = (noStats, [SendResponse SuccessResponse])).
  { intros s'. rewrite handleMessage_cases. cbv zeta. rewrite Hr.
    reflexivity. }
  split; [|exact Hone].
  rewrite handleAll_app. cbn [handleAll]. rewrite Hone.
  destruct (handleAll after noStats). reflexivity.
Qed.

Lemma X18_reset_forgets_history_witness :
  fst (handleAll
         ([("t1", mkMessage "AUTO_MUTED" (Some 1))]
          ++ ("t2", mkMessage "RESET_STATS" None)
             :: [("t3", mkMessage "AUTO_UNMUTED" (Some 2))]) noStats)
  = mkStats 0 1 (Some "t3").
Proof.
  rewrite (proj1 (X18_reset_forgets_history
                    [("t1", mkMessage "AUTO_MUTED" (Some 1))]
                    [("t3", mkMessage "AUTO_UNMUTED" (Some 2))]
                    "t2" (mkMessage "RESET_STATS" None) noStats eq_refl)).
  reflexivity.
Defined.



End BackgroundFacts.


Section NotificationFacts.

Import Background.

(** X20. [showNotification] creates nothing when the stored
    [showNotifications] is [false]. Otherwise it tries at most once with
    the icon and retries without it exactly when the first attempt
    reports [lastError]; and the text is never lost: it is written to the
    console exactly when no attempt ends with a notification. *)
Theorem X20_notification_shown_or_logged (env : NotificationEnv)
  (title message : string) :
  let effects := showNotification env title message in
  (isNotFalse (storedShowNotifications env) = false -> effects = []) /\
  (List.length (filter isCreateWithIcon effects) <= 1)%nat /\
  (isNotFalse (storedShowNotifications env) = true ->
   List.length (filter isCreateWithoutIcon effects) =
     (if apiAvailable env && isLastError (createWithIcon env)
      then 1%nat else 0%nat) /\
   existsb isFallback effects = negb (shown env)).
Proof.
  cbv zeta. unfold showNotification, showNotificationWithoutIcon, shown.
  destruct (isNotFalse (storedShowNotifications env));
    [|split; [reflexivity | split; [cbn; lia | discriminate]]].
  split; [discriminate|].
  destruct (apiAvailable env), (createWithIcon env), (createWithoutIcon env);
    cbn; repeat split; lia.
Qed.

Lemma X20_notification_shown_or_logged_witness :
  showNotification
    (mkEnv (JsBoolean false) true (Created "id") (Created "id"))
    "title" "text" = [] /\
  existsb isFallback
    (showNotification (mkEnv JsUndefined true LastError CreateThrows)
       "title" "text") = true.
Proof.
  split.
  - apply (X20_notification_shown_or_logged
             (mkEnv (JsBoolean false) true (Created "id") (Created "id"))).
    reflexivity.
  - apply (X20_notification_shown_or_logged
             (mkEnv JsUndefined true LastError CreateThrows)).
    reflexivity.
Defined.

End NotificationFacts.

(** ** The options page *)

Section OptionsFacts.

Import Options.

(** X21. Applying the sensitivity mode twice is the same as once; it
    writes only the threshold and the interval; for "custom" and any
    unknown mode it leaves the settings alone; and choosing one of the
    three presets fixes threshold and interval whatever they were, so a
    preset overwrites a hand-tuned threshold. *)
Theorem X21_sensitivity_presets (s : Settings) :
  applySensitivityMode (fst (applySensitivityMode s))
  = applySensitivityMode s /\
  (let s' := fst (applySensitivityMode s) in
   enabled s' = enabled s /\ silenceDuration s' = silenceDuration s /\
   showNotifications s' = showNotifications s /\
   notificationSound s' = notificationSound s /\
   sensitivityMode s' = sensitivityMode s) /\
  (isPreset (sensitivityMode s) = false ->
   fst (applySensitivityMode s) = s) /\
  (forall value other,
     isPreset value = true ->
     let chosen := fst (onSensitivityModeChange value s) in
     let chosen' := fst (onSensitivityModeChange value other) in
     volumeThreshold chosen = volumeThreshold chosen' /\
     monitoringInterval chosen = monitoringInterval chosen').
Proof.
  split; [|split; [|split]].
  - unfold applySensitivityMode, withThresholdAndInterval. cbn [fst].
    destruct (String.eqb (sensitivityMode s) "high") eqn:Hh;
      [cbn; rewrite Hh; reflexivity|].
    destruct (String.eqb (sensitivityMode s) "low") eqn:Hl;
      [cbn; rewrite Hh, Hl; reflexivity|].
    destruct (String.eqb (sensitivityMode s) "normal") eqn:Hn;
      [cbn; rewrite Hh, Hl, Hn; reflexivity|].
    rewrite Hh, Hl, Hn. reflexivity.
  - unfold applySensitivityMode, withThresholdAndInterval. cbn [fst].
    destruct (String.eqb (sensitivityMode s) "high");
      [cbn; repeat split|].
    destruct (String.eqb (sensitivityMode s) "low");
      [cbn; repeat split|].
    destruct (String.eqb (sensitivityMode s) "normal");
      cbn; repeat split.
  - unfold isPreset, applySensitivityMode. cbn [fst]. intros H.
    apply orb_false_iff in H as [H Hn]. apply orb_false_iff in H as [Hh Hl].
    rewrite Hh, Hl, Hn. reflexivity.
  - intros value other Hp. cbv zeta.
    unfold onSensitivityModeChange, applySensitivityMode,
      withThresholdAndInterval, isPreset in *.
    cbn [fst sensitivityMode].
    destruct (String.eqb value "high"); [cbn; split; reflexivity|].
    destruct (String.eqb value "low"); [cbn; split; reflexivity|].
    destruct (String.eqb value "normal"); [cbn; split; reflexivity|].
    discriminate Hp.
Qed.

Lemma X21_sensitivity_presets_witness :
  let tuned := mkSettings true 0.013 3 false false 100 "custom" in
  fst (applySensitivityMode tuned) = tuned /\
  volumeThreshold (fst (onSensitivityModeChange "normal" tuned)) = 0.1%float.
Proof.
  intros tuned.
  destruct (X21_sensitivity_presets tuned) as (_ & _ & Hcustom & Hpreset).
  split; [apply Hcustom; reflexivity|].
  rewrite (proj1 (Hpreset "normal"
                    (mkSettings true 0.1 3 false false 100 "normal")
                    eq_refl)).
  reflexivity.
Defined.

End OptionsFacts.

(** ** The userscript's loop *)

Section UserScriptLoopFacts.

Local Open Scope float_scope.

Import UserScriptLoop.

(** One tick of the userscript, in terms of what the page shows. *)
Lemma userscript_tick doc freq (m : UserScript.AudioLevelMonitor) :
  UserScript.isMonitoring m = true ->
  UserScript.monitorAudioLevel doc freq m =
  let believed :=
    UserScript.mkMonitor (UserScript.isMonitoring m)
      (UserScript.volumeThreshold m) (UserScript.silenceDuration m)
      (UserScript.maxSilenceDuration m) (mutedMarker doc)
      (UserScript.originalMuteState m) in
  let result :=
    if calculateAverageVolume freq <? UserScript.volumeThreshold m then
      let m' :=
        UserScript.set_silenceDuration
          (UserScript.silenceDuration m + 0.1) believed in
      if (UserScript.maxSilenceDuration m
            <=? UserScript.silenceDuration m + 0.1)
         && negb (mutedMarker doc)
      then UserScript.autoMute doc m' else (m', [])
    else
      let m' := UserScript.set_silenceDuration 0 believed in
      if mutedMarker doc && Bool.eqb (UserScript.originalMuteState m) false
      then UserScript.autoUnmute doc m' else (m', []) in
  (fst result, snd result ++ [UserScript.ScheduleTick 100]).
Proof.
  destruct m as [mon thr sd mx im orig]. cbn [UserScript.isMonitoring].
  intros ->. unfold UserScript.monitorAudioLevel.
  cbn [negb UserScript.isMonitoring]. cbv zeta.
  match goal with
  | |- (let (_, _) := ?X in _) = (fst ?Y, _) =>
      change Y with X; destruct X; reflexivity
  end.
Qed.

Lemma userscript_tick_original doc freq (m : UserScript.AudioLevelMonitor) :
  UserScript.originalMuteState m = false ->
  UserScript.originalMuteState
    (fst (UserScript.monitorAudioLevel doc freq m)) = false.
Proof.
  intros H. destruct (UserScript.isMonitoring m) eqn:Hm.
  - rewrite (userscript_tick doc freq m Hm). cbv zeta. cbn [fst].
    unfold UserScript.autoMute, UserScript.autoUnmute.
    generalize (UserScript.firstMatch doc UserScript.muteButtons).
    generalize (UserScript.firstMatch doc UserScript.unmuteButtons).
    generalize (mutedMarker doc). intros marker unmuteTarget muteTarget.
    destruct (_ <? _); destruct (_ <=? _) || idtac;
      destruct marker, muteTarget, unmuteTarget; cbn; rewrite ?H; cbn;
      try reflexivity; exact H.
  - unfold UserScript.monitorAudioLevel. rewrite Hm. exact H.
Qed.

(** X22. In the userscript [originalMuteState] is [false] after every
    run that starts with it [false], as the constructor does: the only
    write copies a belief that the guard has just found unmuted. The
    guard [originalMuteState === false] of the speech branch therefore
    never holds an unmute back. *)
Theorem X22_userscript_original_state_false
  (inputs : list (Document * list Byte.byte))
  (m : UserScript.AudioLevelMonitor) :
  UserScript.originalMuteState m = false ->
  UserScript.originalMuteState (fst (run inputs m)) = false.
Proof.
  revert m. induction inputs as [|[doc freq] rest IH]; intros m H;
    [exact H|].
  cbn [run].
  pose proof (userscript_tick_original doc freq m H) as H'.
  destruct (UserScript.monitorAudioLevel doc freq m) as [m' effects].
  cbn [fst] in H'.
  destruct (existsb isScheduleTick effects); [|exact H'].
  specialize (IH m' H'). destruct (run rest m'). exact IH.
Qed.

Lemma X22_userscript_original_state_false_witness :
  UserScript.originalMuteState
    (fst (run (repeat ([micLive], silentBins) 31
               ++ [([micMuted], loudBins)])
            (started 0.01 3))) = false.
Proof.
  apply (X22_userscript_original_state_false
           (repeat ([micLive], silentBins) 31 ++ [([micMuted], loudBins)])
           (started 0.01 3)).
  reflexivity.
Defined.

(** X23. The userscript's belief is purely what the page shows: after
    every tick it equals "some muted marker is on the page", whatever it
    was before and whatever the tick clicked; and a tick clicks at most
    one button. *)
Theorem X23_userscript_belief_is_marker doc freq
  (m : UserScript.AudioLevelMonitor) :
  UserScript.isMonitoring m = true ->
  UserScript.isMuted (fst (UserScript.monitorAudioLevel doc freq m))
  = mutedMarker doc /\
  (clicks (snd (UserScript.monitorAudioLevel doc freq m)) <= 1)%nat.
Proof.
  intros Hm. rewrite (userscript_tick doc freq m Hm). cbv zeta.
  cbn [fst snd].
  unfold UserScript.autoMute, UserScript.autoUnmute, clicks.
  generalize (UserScript.firstMatch doc UserScript.muteButtons).
  generalize (UserScript.firstMatch doc UserScript.unmuteButtons).
  generalize (mutedMarker doc). intros marker unmuteTarget muteTarget.
  destruct (_ <? _); [destruct (_ <=? _)|];
    destruct marker, muteTarget, unmuteTarget,
      (UserScript.originalMuteState m); cbn; split; (reflexivity || lia).
Qed.

Lemma X23_userscript_belief_is_marker_witness :
  UserScript.isMuted
    (fst (UserScript.monitorAudioLevel [micMuted] silentBins
            (started 0.01 3))) = true.
Proof.
  apply (X23_userscript_belief_is_marker [micMuted] silentBins
           (started 0.01 3)).
  reflexivity.
Defined.

(** X24. The userscript picks its targets by the [data-is-muted]
    attribute alone. When muting is due and the page shows no muted
    marker, it clicks the first element with [data-is-muted="false"];
    on a speech tick it takes the first element with
    [data-is-muted="true"] both as the sign that the microphone is muted
    and as the button to click. Neither has to be the microphone
    button. *)
Theorem X24_userscript_targets_by_attribute doc freq (target : Element)
  (m : UserScript.AudioLevelMonitor) :
  UserScript.isMonitoring m = true ->
  (querySelector doc (mkSelector None [AttrEquals "data-is-muted" "false"])
   = Some target ->
   mutedMarker doc = false ->
   (calculateAverageVolume freq <? UserScript.volumeThreshold m) = true ->
   (UserScript.maxSilenceDuration m
      <=? UserScript.silenceDuration m + 0.1) = true ->
   snd (UserScript.monitorAudioLevel doc freq m) =
     [UserScript.Click target;
      UserScript.Notification "自動ミュート"
        "音声が検出されなくなったため、自動的にミュートしました";
      UserScript.ScheduleTick 100]) /\
  (querySelector doc (mkSelector None [AttrEquals "data-is-muted" "true"])
   = Some target ->
   UserScript.originalMuteState m = false ->
   (UserScript.volumeThreshold m <=? calculateAverageVolume freq) = true ->
   snd (UserScript.monitorAudioLevel doc freq m) =
     [UserScript.Click target;
      UserScript.Notification "自動ミュート解除"
        "音声が検出されたため、自動的にミュートを解除しました";
      UserScript.ScheduleTick 100]).
Proof.
  intros Hm. rewrite (userscript_tick doc freq m Hm). cbv zeta.
  cbn [snd]. split.
  - intros Hq Hmk Hs Hdue. rewrite Hs, Hdue, Hmk. cbn [andb negb].
    unfold UserScript.autoMute, UserScript.muteButtons.
    cbn [UserScript.firstMatch]. rewrite Hq. reflexivity.
  - intros Hq Ho Hs.
    assert (Hmk : mutedMarker doc = true).
    { unfold mutedMarker, UserScript.mutedMarkers.
      cbn [UserScript.firstMatch]. rewrite Hq. reflexivity. }
    rewrite (leb_true_ltb_false _ _ Hs), Hmk, Ho. cbn [andb Bool.eqb].
    unfold UserScript.autoUnmute, UserScript.unmuteButtons.
    cbn [UserScript.firstMatch]. rewrite Hq. reflexivity.
Qed.

Lemma X24_userscript_targets_by_attribute_witness :
  let cameraOff :=
    mkElement "button"
      [("jsname", "psRWwc"); ("aria-label", "カメラをオン");
       ("data-is-muted", "true")] [] in
  snd (UserScript.monitorAudioLevel [cameraOff; micLive] loudBins
         (started 0.01 3)) =
    [UserScript.Click cameraOff;
     UserScript.Notification "自動ミュート解除"
       "音声が検出されたため、自動的にミュートを解除しました";
     UserScript.ScheduleTick 100].
Proof.
  intros cameraOff.
  apply (X24_userscript_targets_by_attribute [cameraOff; micLive] loudBins
           cameraOff (started 0.01 3)); reflexivity.
Defined.

End UserScriptLoopFacts.
